(** * Reception system: the queue server (Server_main.py)

    A shallow embedding of the FastAPI queue server and the properties of
    its ticket life cycle and position computation.

    Conventions of the embedding.
    - Python [int] is [Z]; [len(...)] is [Z.of_nat (List.length ...)].
    - A [datetime] is a [Z] (microseconds since the epoch); only its order
      and equality are used by the server.  The value of
      [datetime.now(timezone.utc)] is an argument [now] of every handler
      that reads the clock.
    - A table is the list of its rows in rowid order.  A primary key that
      is left [None] is assigned by the database on insert (largest rowid
      plus one, as SQLite does for an INTEGER PRIMARY KEY).
    - [order_by] keeps rows with equal keys in rowid order.
    - A handler is a function from the store to an outcome and a store:
      a small state-and-exception monad.  An outcome is a value, an
      [HTTPException] raised by the handler, or an exception that no
      handler catches, which the server answers with status 500.
    - A key handed to [session.get] is sent to the database as a signed
      64-bit integer; a Python [int] outside that range makes the driver
      raise [OverflowError].  *)

From Stdlib Require Import List ZArith String Bool Lia.
From Stdlib Require Import Sorting.Sorted Sorting.Permutation.
From Stdlib Require Import Ascii.
From Stdlib Require DecimalString DecimalZ DecimalPos.
Import ListNotations.

Local Open Scope Z_scope.

(* ------------------------------------------------------------------ *)
(** ** Tables *)

Module Service.
Record t : Type := mk {
  id : Z;
  name : string;
  description : option string;
  created_at : Z
}.
End Service.

Module Ticket.
Record t : Type := mk {
  id : Z;
  name : string;
  service_id : Z;
  called : bool;
  created_at : Z;
  called_at : option Z
}.
End Ticket.

Record Store : Type := mkStore {
  services : list Service.t;
  tickets : list Ticket.t
}.

Definition empty_store : Store := mkStore [] [].

(* ------------------------------------------------------------------ *)
(** ** Schemas *)

Record ServiceCreate : Type := mkServiceCreate {
  sc_name : string;
  sc_description : option string
}.

Record TicketCreate : Type := mkTicketCreate {
  tc_name : string;
  tc_service_id : Z
}.

Module TicketRead.
Record t : Type := mk {
  id : Z;
  name : string;
  service_id : Z;
  position : Z;
  called : bool;
  created_at : Z;
  called_at : option Z
}.
End TicketRead.

Module QueueRead.
Record t : Type := mk {
  service_id : Z;
  service_name : string;
  waiting : Z;
  tickets : list TicketRead.t
}.
End QueueRead.

Module QueueSummary.
Record t : Type := mk {
  service_id : Z;
  service_name : string;
  waiting : Z
}.
End QueueSummary.

(* ------------------------------------------------------------------ *)
(** ** Handlers: state and exceptions *)

Record HTTPException : Type := mkHTTPException {
  status_code : Z;
  detail : string
}.

Inductive Result (A : Type) : Type :=
| Return (a : A)
| Raised (e : HTTPException)
| Unhandled (exception : string).
Arguments Return {A} a.
Arguments Raised {A} e.
Arguments Unhandled {A} exception.

Definition Handler (A : Type) : Type := Store -> Result A * Store.

Definition ret {A} (a : A) : Handler A := fun s => (Return a, s).

Definition raise {A} (e : HTTPException) : Handler A := fun s => (Raised e, s).

Definition bind {A B} (m : Handler A) (k : A -> Handler B) : Handler B :=
  fun s =>
    match m s with
    | (Return a, s') => k a s'
    | (Raised e, s') => (Raised e, s')
    | (Unhandled x, s') => (Unhandled x, s')
    end.

Declare Scope handler_scope.
Delimit Scope handler_scope with handler.
Notation "x <- m ;; k" := (bind m (fun x => k))
  (at level 100, m at next level, right associativity) : handler_scope.
Notation "m ;; k" := (bind m (fun _ => k))
  (at level 100, right associativity) : handler_scope.

(* ------------------------------------------------------------------ *)
(** ** The session: queries and commits *)

(** [ORDER BY key]: a stable insertion sort on the rows. *)
Fixpoint insert_row {A} (key : A -> Z) (x : A) (rows : list A) : list A :=
  match rows with
  | [] => [x]
  | y :: rest => if key x <=? key y then x :: rows else y :: insert_row key x rest
  end.

Definition order_by {A} (key : A -> Z) (rows : list A) : list A :=
  fold_right (insert_row key) [] rows.

(** [session.exec(select ...)]: a read of the store. *)
Definition session_exec {A} (query : Store -> A) : Handler A :=
  fun s => (Return (query s), s).

(** The row of a table under a primary key. *)
Definition get_service (id : Z) (s : Store) : option Service.t :=
  find (fun r => Service.id r =? id) (services s).

Definition get_ticket_row (id : Z) (s : Store) : option Ticket.t :=
  find (fun r => Ticket.id r =? id) (tickets s).

(** The integers the driver can send to the database: signed 64-bit. *)
Definition in_int64 (n : Z) : bool :=
  (- 2 ^ 63 <=? n) && (n <=? 2 ^ 63 - 1).

(** [session.get(Service, id)] and [session.get(Ticket, id)]: the row
    under the key, [None] when the table has none, and [OverflowError]
    for a key the driver cannot send.  A table holds no row under such a
    key, so the range is looked at when no row is found. *)
Definition session_get_service (id : Z) : Handler (option Service.t) :=
  fun s =>
    match get_service id s with
    | Some row => (Return (Some row), s)
    | None =>
        if in_int64 id then (Return None, s)
        else (Unhandled "OverflowError", s)
    end.

Definition session_get_ticket (id : Z) : Handler (option Ticket.t) :=
  fun s =>
    match get_ticket_row id s with
    | Some row => (Return (Some row), s)
    | None =>
        if in_int64 id then (Return None, s)
        else (Unhandled "OverflowError", s)
    end.

(** The rowid given to a row inserted with [id = None]. *)
Definition next_rowid (ids : list Z) : Z := fold_right Z.max 0 ids + 1.

(** [session.add(svc); session.commit(); session.refresh(svc)] for a new
    service: the row is appended and read back with its id. *)
Definition commit_new_service (name : string) (description : option string)
    (created_at : Z) : Handler Service.t :=
  fun s =>
    let row := Service.mk (next_rowid (map Service.id (services s)))
                          name description created_at in
    (Return row, mkStore (services s ++ [row]) (tickets s)).

(** The same for a new ticket; [called] and [called_at] take their
    defaults [False] and [None]. *)
Definition commit_new_ticket (name : string) (service_id : Z) (created_at : Z)
    : Handler Ticket.t :=
  fun s =>
    let row := Ticket.mk (next_rowid (map Ticket.id (tickets s)))
                         name service_id false created_at None in
    (Return row, mkStore (services s) (tickets s ++ [row])).

(** [session.delete(ticket); session.commit()]: DELETE ... WHERE id = ?. *)
Definition commit_delete_ticket (ticket : Ticket.t) : Handler unit :=
  fun s =>
    (Return tt,
     mkStore (services s)
             (filter (fun r => negb (Ticket.id r =? Ticket.id ticket)) (tickets s))).

(** [session.add(ticket); session.commit(); session.refresh(ticket)] for a
    row that is already persistent: UPDATE ... WHERE id = ?. *)
Definition commit_update_ticket (ticket : Ticket.t) : Handler Ticket.t :=
  fun s =>
    (Return ticket,
     mkStore (services s)
             (map (fun r => if Ticket.id r =? Ticket.id ticket then ticket else r)
                  (tickets s))).

(* ------------------------------------------------------------------ *)
(** ** Dependencies *)

Definition ADMIN_API_KEY : string := "CHANGE_ME".

Definition verify_admin (x_api_key : string) : Handler unit :=
  if String.eqb x_api_key ADMIN_API_KEY then ret tt
  else raise (mkHTTPException 401 "Invalid API key").

(* ------------------------------------------------------------------ *)
(** ** Internal utilities *)

Local Open Scope handler_scope.

(** Rows of [select(Ticket).where(service_id == .., called == False,
    created_at < ..)]. *)
Definition select_earlier_waiting (ticket : Ticket.t) (s : Store) : list Ticket.t :=
  filter (fun r => (Ticket.service_id r =? Ticket.service_id ticket)
                   && negb (Ticket.called r)
                   && (Ticket.created_at r <? Ticket.created_at ticket))
         (tickets s).

Definition _position_in_queue (ticket : Ticket.t) : Handler Z :=
  if Ticket.called ticket then ret 0
  else
    earlier_rows <- session_exec (select_earlier_waiting ticket) ;;
    ret (Z.of_nat (List.length earlier_rows) + 1).

Definition _ticket_to_read (ticket : Ticket.t) (position : Z) : TicketRead.t :=
  TicketRead.mk (Ticket.id ticket) (Ticket.name ticket) (Ticket.service_id ticket)
                position (Ticket.called ticket) (Ticket.created_at ticket)
                (Ticket.called_at ticket).

(* ------------------------------------------------------------------ *)
(** ** Services *)

Definition select_service_by_name (name : string) (s : Store) : option Service.t :=
  hd_error (filter (fun r => String.eqb (Service.name r) name) (services s)).

Definition create_service (data : ServiceCreate) (now : Z) : Handler Service.t :=
  existing <- session_exec (select_service_by_name (sc_name data)) ;;
  match existing with
  | Some _ =>
      raise (mkHTTPException 400
               ("Service '" ++ sc_name data ++ "' already exists")%string)
  | None =>
      svc <- commit_new_service (sc_name data) (sc_description data) now ;;
      ret svc
  end.

Definition list_services : Handler (list Service.t) :=
  session_exec (fun s => order_by Service.id (services s)).

(* ------------------------------------------------------------------ *)
(** ** Tickets *)

Definition register_ticket (data : TicketCreate) (now : Z) : Handler TicketRead.t :=
  service <- session_get_service (tc_service_id data) ;;
  match service with
  | None => raise (mkHTTPException 404 "Service not found")
  | Some service =>
      ticket <- commit_new_ticket (tc_name data) (Service.id service) now ;;
      pos <- _position_in_queue ticket ;;
      ret (_ticket_to_read ticket pos)
  end.

Definition get_ticket (ticket_id : Z) : Handler TicketRead.t :=
  ticket <- session_get_ticket ticket_id ;;
  match ticket with
  | None => raise (mkHTTPException 404 "Ticket not found")
  | Some ticket =>
      pos <- _position_in_queue ticket ;;
      ret (_ticket_to_read ticket pos)
  end.

Definition cancel_ticket (ticket_id : Z) : Handler unit :=
  ticket <- session_get_ticket ticket_id ;;
  match ticket with
  | None => raise (mkHTTPException 404 "Ticket not found")
  | Some ticket =>
      if Ticket.called ticket
      then raise (mkHTTPException 400 "Already called; cannot cancel")
      else commit_delete_ticket ticket
  end.

(* ------------------------------------------------------------------ *)
(** ** Queue detail *)

(** [select(Ticket).where(service_id == ..).order_by(created_at)]. *)
Definition select_service_tickets (service_id : Z) (s : Store) : list Ticket.t :=
  order_by Ticket.created_at
           (filter (fun r => Ticket.service_id r =? service_id) (tickets s)).

(** The loop that fills [tickets_list], with its counter [idx]. *)
Fixpoint annotate (idx : Z) (all_tickets : list Ticket.t) : list TicketRead.t :=
  match all_tickets with
  | [] => []
  | t :: rest =>
      let pos := if negb (Ticket.called t) then idx else 0 in
      let idx' := if negb (Ticket.called t) then idx + 1 else idx in
      _ticket_to_read t pos :: annotate idx' rest
  end.

(** [read_list], built from the waiting tickets only, is computed by the
    source and not used in the answer; it is left out. *)
Definition queue_detail (service_id : Z) : Handler QueueRead.t :=
  service <- session_get_service service_id ;;
  match service with
  | None => raise (mkHTTPException 404 "Service not found")
  | Some service =>
      all_tickets <- session_exec (select_service_tickets service_id) ;;
      let waiting :=
        Z.of_nat (List.length (filter (fun t => negb (Ticket.called t)) all_tickets)) in
      let tickets_list := annotate 1 all_tickets in
      ret (QueueRead.mk (Service.id service) (Service.name service)
                        waiting tickets_list)
  end.

(* ------------------------------------------------------------------ *)
(** ** Calling the next visitor *)

(** [select(Ticket).where(service_id == .., called == False)
      .order_by(created_at).limit(1)], then [.first()]. *)
Definition select_waiting (service_id : Z) (s : Store) : list Ticket.t :=
  filter (fun r => (Ticket.service_id r =? service_id) && negb (Ticket.called r))
         (tickets s).

Definition select_next (service_id : Z) (s : Store) : option Ticket.t :=
  hd_error (firstn 1 (order_by Ticket.created_at (select_waiting service_id s))).

Definition call_next (service_id : Z) (now : Z) : Handler TicketRead.t :=
  ticket <- session_exec (select_next service_id) ;;
  match ticket with
  | None => raise (mkHTTPException 404 "No one waiting")
  | Some ticket =>
      let ticket := Ticket.mk (Ticket.id ticket) (Ticket.name ticket)
                              (Ticket.service_id ticket) true
                              (Ticket.created_at ticket) (Some now) in
      ticket <- commit_update_ticket ticket ;;
      ret (_ticket_to_read ticket 0)
  end.

(* ------------------------------------------------------------------ *)
(** ** Statistics *)

Definition stats : Handler (list QueueSummary.t) :=
  session_exec (fun s =>
    map (fun svc =>
           QueueSummary.mk (Service.id svc) (Service.name svc)
             (Z.of_nat (List.length (select_waiting (Service.id svc) s))))
        (services s)).

(* ------------------------------------------------------------------ *)
(** ** The application: routes and responses *)

Inductive Request : Type :=
| POST_services (data : ServiceCreate)
| GET_services
| POST_tickets (data : TicketCreate)
| GET_tickets (ticket_id : Z)
| DELETE_tickets (ticket_id : Z)
| GET_queues (service_id : Z)
| POST_admin_next (x_api_key : string) (service_id : Z)
| GET_stats.

Inductive Body : Type :=
| ServiceBody (svc : Service.t)
| ServiceListBody (l : list Service.t)
| TicketBody (t : TicketRead.t)
| QueueBody (q : QueueRead.t)
| StatsBody (l : list QueueSummary.t)
| NoBody
| DetailBody (detail : string)
| TextBody (text : string).

Record Response : Type := mkResponse {
  status : Z;
  body : Body
}.

(** A route answers with its declared status code (200 when none is
    declared) and the handler's value, or with the status and detail of
    the [HTTPException] raised; an exception that nothing catches is
    answered with 500 and the text "Internal Server Error". *)
Definition respond {A} (success : Z) (to_body : A -> Body) (h : Handler A)
    : Store -> Response * Store :=
  fun s =>
    match h s with
    | (Return a, s') => (mkResponse success (to_body a), s')
    | (Raised e, s') => (mkResponse (status_code e) (DetailBody (detail e)), s')
    | (Unhandled _, s') => (mkResponse 500 (TextBody "Internal Server Error"), s')
    end.

Definition app (req : Request) (now : Z) : Store -> Response * Store :=
  match req with
  | POST_services data => respond 201 ServiceBody (create_service data now)
  | GET_services => respond 200 ServiceListBody list_services
  | POST_tickets data => respond 201 TicketBody (register_ticket data now)
  | GET_tickets ticket_id => respond 200 TicketBody (get_ticket ticket_id)
  | DELETE_tickets ticket_id =>
      respond 204 (fun _ : unit => NoBody) (cancel_ticket ticket_id)
  | GET_queues service_id => respond 200 QueueBody (queue_detail service_id)
  | POST_admin_next x_api_key service_id =>
      respond 200 TicketBody (verify_admin x_api_key ;; call_next service_id now)
  | GET_stats => respond 200 StatsBody stats
  end.

(** A run of the server: requests served one after the other, each with the
    clock value it reads. *)
Fixpoint run (trace : list (Request * Z)) (s : Store) : Store :=
  match trace with
  | [] => s
  | (req, now) :: rest => run rest (snd (app req now s))
  end.

Definition reachable (s : Store) : Prop :=
  exists trace, s = run trace empty_store.

(* ------------------------------------------------------------------ *)
(** ** Well-formed stores *)

(** The primary keys of both tables are unique. *)
Definition wf (s : Store) : Prop :=
  NoDup (map Service.id (services s)) /\ NoDup (map Ticket.id (tickets s)).

(** The waiting tickets of a service carry pairwise distinct arrival
    times. *)
Definition distinct_arrivals (service_id : Z) (s : Store) : Prop :=
  NoDup (map Ticket.created_at (select_waiting service_id s)).

Definition waiting (t : Ticket.t) : bool := negb (Ticket.called t).

(** The row written by [call_next] for the selected ticket. *)
Definition mark_called (t : Ticket.t) (now : Z) : Ticket.t :=
  Ticket.mk (Ticket.id t) (Ticket.name t) (Ticket.service_id t) true
            (Ticket.created_at t) (Some now).

(** The rank of the entry at index [k] of a listing among its waiting
    entries, counted from 1: one more than the number of waiting entries
    listed before it. *)
Definition waiting_rank (all_tickets : list Ticket.t) (k : nat) : Z :=
  Z.of_nat (List.length (filter waiting (firstn k all_tickets))) + 1.

(** The order that [order_by key] establishes. *)
Definition key_le {A} (key : A -> Z) (a b : A) : Prop := key a <= key b.

(** The rows of one service, in rowid order. *)
Definition tickets_of (service_id : Z) (s : Store) : list Ticket.t :=
  filter (fun r => Ticket.service_id r =? service_id) (tickets s).

(** The waiting rows of a listing that arrived strictly before [t]. *)
Definition earlier_waiting_in (l : list Ticket.t) (t : Ticket.t) : list Ticket.t :=
  filter (fun r => waiting r && (Ticket.created_at r <? Ticket.created_at t)) l.

(** The row found under [ticket_id] is a called one. *)
Definition called_row (ticket_id : Z) (s : Store) : Prop :=
  exists t, get_ticket_row ticket_id s = Some t /\ Ticket.called t = true.


(** *** Sample stores

    Two services; the first has three visitors, one of them already
    called. *)
Definition reception : ServiceCreate := mkServiceCreate "Reception" None.

Definition sample_trace : list (Request * Z) :=
  [ (POST_services reception, 10);
    (POST_services (mkServiceCreate "Cafe" (Some "drinks"%string)), 20);
    (POST_tickets (mkTicketCreate "Alice" 1), 100);
    (POST_tickets (mkTicketCreate "Bob" 1), 200);
    (POST_tickets (mkTicketCreate "Dan" 2), 250);
    (POST_tickets (mkTicketCreate "Carol" 1), 300);
    (POST_admin_next "CHANGE_ME" 1, 400) ].

Definition sample_store : Store := Eval cbv in run sample_trace empty_store.

(** The position a route answers with, when it answers with a ticket. *)
Definition answered_position (r : Response) : option Z :=
  match body r with
  | TicketBody t => Some (TicketRead.position t)
  | _ => None
  end.

(** The names listed by a queue detail answer. *)
Definition answered_names (r : Response) : list string :=
  match body r with
  | QueueBody q => map TicketRead.name (QueueRead.tickets q)
  | _ => []
  end.

(** "Reception" with Alice and then Bob registered. *)
Definition alice_bob_trace : list (Request * Z) :=
  [ (POST_services reception, 10);
    (POST_tickets (mkTicketCreate "Alice" 1), 100);
    (POST_tickets (mkTicketCreate "Bob" 1), 200) ].

(** The least integer above the keys the driver can send. *)
Definition too_large_key : Z := 2 ^ 63.

(** Two visitors whose registrations read the same clock value. *)
Definition tie_trace : list (Request * Z) :=
  [ (POST_services reception, 10);
    (POST_tickets (mkTicketCreate "Alice" 1), 100);
    (POST_tickets (mkTicketCreate "Bob" 1), 100) ].

Definition tie_store : Store := Eval cbv in run tie_trace empty_store.

(* ------------------------------------------------------------------ *)
(** ** What a request can do to the store *)

(** The writes of the handlers, each with the test that guards it: a
    request served at clock value [now] leaves the store as it is, appends
    a service whose name was free, appends a waiting ticket for a service
    that exists, deletes a waiting ticket, or marks the ticket chosen by
    [select_next] as called. *)
Inductive effect (now : Z) (s : Store) : Store -> Prop :=
| effect_none : effect now s s
| effect_new_service (name : string) (description : option string) :
    select_service_by_name name s = None ->
    effect now s
      (mkStore (services s
                ++ [Service.mk (next_rowid (map Service.id (services s)))
                               name description now])
               (tickets s))
| effect_new_ticket (name : string) (svc : Service.t) :
    get_service (Service.id svc) s = Some svc ->
    effect now s
      (mkStore (services s)
               (tickets s
                ++ [Ticket.mk (next_rowid (map Ticket.id (tickets s)))
                              name (Service.id svc) false now None]))
| effect_delete (t : Ticket.t) :
    get_ticket_row (Ticket.id t) s = Some t ->
    Ticket.called t = false ->
    effect now s
      (mkStore (services s)
               (filter (fun r => negb (Ticket.id r =? Ticket.id t)) (tickets s)))
| effect_call (service_id : Z) (c : Ticket.t) :
    select_next service_id s = Some c ->
    effect now s
      (mkStore (services s)
               (map (fun r => if Ticket.id r =? Ticket.id c
                              then mark_called c now else r)
                    (tickets s))).

(** The clock values read by the requests of a run never go back, and
    start at [c] or later. *)
Fixpoint clock_monotone (c : Z) (trace : list (Request * Z)) : bool :=
  match trace with
  | [] => true
  | (_, now) :: rest => (c <=? now) && clock_monotone now rest
  end.

(** A called ticket of a service never arrived after a waiting one. *)
Definition fifo (s : Store) : Prop :=
  forall t u,
    In t (tickets s) -> In u (tickets s) ->
    Ticket.service_id t = Ticket.service_id u ->
    Ticket.called t = true -> Ticket.called u = false ->
    Ticket.created_at t <= Ticket.created_at u.

(** No arrival and no call is later than [c], and no call is earlier than
    the arrival of the ticket called. *)
Definition stamps_within (c : Z) (s : Store) : Prop :=
  forall t,
    In t (tickets s) ->
    Ticket.created_at t <= c /\
    match Ticket.called_at t with
    | Some a => Ticket.created_at t <= a /\ a <= c
    | None => True
    end.

(** The position [_position_in_queue] answers with. *)
Definition position_of (t : Ticket.t) (s : Store) : Z :=
  if Ticket.called t then 0
  else Z.of_nat (List.length (select_earlier_waiting t s)) + 1.

(** The routes declared with [@app.get]. *)
Definition is_get (req : Request) : bool :=
  match req with
  | GET_services | GET_tickets _ | GET_queues _ | GET_stats => true
  | POST_services _ | POST_tickets _ | DELETE_tickets _ | POST_admin_next _ _ => false
  end.

(* ------------------------------------------------------------------ *)
(** ** The staff client (Admin_main.py): the list of services

    [load_stats] fills the list box with one line per summary answered by
    [/stats]; [selected_service_id] reads the service id back from the
    line that is selected.  Texts are strings of bytes; the separators
    looked for are ASCII, so working on bytes or on code points is the
    same. *)

(** [str(n)] for an [int]: the decimal digits, after a minus sign when
    negative. *)
Definition str (n : Z) : string :=
  DecimalString.NilZero.string_of_int (Z.to_int n).

(** [s.split(sep)[0]] for a separator of one character: the text before
    its first occurrence, the whole text when there is none. *)
Fixpoint split_first (sep : ascii) (s : string) : string :=
  match s with
  | EmptyString => EmptyString
  | String a rest =>
      if Ascii.eqb a sep then EmptyString else String a (split_first sep rest)
  end.

(** [s.lstrip(c)] for one character. *)
Fixpoint lstrip (c : ascii) (s : string) : string :=
  match s with
  | EmptyString => EmptyString
  | String a rest => if Ascii.eqb a c then lstrip c rest else s
  end.

Module AdminGUI.

(** What [selected_service_id] does: it returns [None], returns an id, or
    lets the [ValueError] of [int] escape. *)
Inductive Selected : Type :=
| ReturnsNone
| ReturnsId (service_id : Z)
| ValueError.

(** The line that [load_stats] inserts for one summary. *)
Definition stats_line (e : QueueSummary.t) : string :=
  ("[" ++ str (QueueSummary.service_id e) ++ "] "
   ++ QueueSummary.service_name e
   ++ " (" ++ str (QueueSummary.waiting e) ++ "人待ち)")%string.

(** The content of the list box after [load_stats] received [summaries]:
    the box is emptied, then one line is appended per summary. *)
Definition load_stats (summaries : list QueueSummary.t) : list string :=
  map stats_line summaries.

(** [selected_service_id], on the content [lst] of the list box and the
    tuple [curselection] of selected indices.  The builtin [int] is an
    argument: it answers [None] where Python raises [ValueError]. *)
Definition selected_service_id (int : string -> option Z)
    (lst : list string) (curselection : list nat) : Selected :=
  match curselection with
  | [] => ReturnsNone
  | i :: _ =>
      let line := nth i lst EmptyString in
      match int (lstrip "[" (split_first "]" line)) with
      | Some n => ReturnsId n
      | None => ValueError
      end
  end.

End AdminGUI.

(** A reading of decimal texts that inverts [str]; texts that are not an
    optional minus sign followed by digits are not read. *)
Definition int_of_decimal (s : string) : option Z :=
  option_map Z.of_int (DecimalString.NilZero.int_of_string s).

(** The characters of the texts [str] produces. *)
Definition is_decimal_char (a : ascii) : bool :=
  Ascii.eqb a "-" || Ascii.eqb a "0" || Ascii.eqb a "1" || Ascii.eqb a "2"
  || Ascii.eqb a "3" || Ascii.eqb a "4" || Ascii.eqb a "5" || Ascii.eqb a "6"
  || Ascii.eqb a "7" || Ascii.eqb a "8" || Ascii.eqb a "9".

Fixpoint all_chars (p : ascii -> bool) (s : string) : bool :=
  match s with
  | EmptyString => true
  | String a rest => p a && all_chars p rest
  end.

(* ------------------------------------------------------------------ *)
(** ** Calls of [call_next] that overlap

    A call of [call_next] reads the store once, with its SELECT, and,
    when it found a ticket, writes once, with the UPDATE it commits.
    Nothing in the handler keeps other calls from running between the
    two.  A schedule lists the reads and writes of several calls in the
    order in which the store sees them. *)















(* ================================================================== *)
(** * Properties *)

Ltac run_handler :=
  unfold bind, ret, raise, session_exec, session_get_service,
         session_get_ticket, commit_new_service, commit_new_ticket,
         commit_delete_ticket, commit_update_ticket; cbn [fst snd].

(** ** The server on small runs *)

Example alice_then_bob :
  let s := run alice_bob_trace empty_store in
  answered_position (fst (app (GET_tickets 1) 210 s)) = Some 1 /\
  answered_position (fst (app (GET_tickets 2) 210 s)) = Some 2.
Proof. split; reflexivity. Qed.

Example alice_called_first :
  let s := run alice_bob_trace empty_store in
  let (r, s') := app (POST_admin_next "CHANGE_ME" 1) 300 s in
  body r = TicketBody (TicketRead.mk 1 "Alice" 1 0 true 100 (Some 300)) /\
  answered_position (fst (app (GET_tickets 1) 310 s')) = Some 0 /\
  answered_position (fst (app (GET_tickets 2) 310 s')) = Some 1.
Proof. repeat split; reflexivity. Qed.

Example wrong_key_is_refused :
  let s := run alice_bob_trace empty_store in
  app (POST_admin_next "guess" 1) 300 s
  = (mkResponse 401 (DetailBody "Invalid API key"), s).
Proof. reflexivity. Qed.

Example carol_cancelled_is_not_listed :
  let s := run (alice_bob_trace
                ++ [ (POST_tickets (mkTicketCreate "Carol" 1), 300);
                     (DELETE_tickets 3, 310) ]) empty_store in
  answered_names (fst (app (GET_queues 1) 320 s))
  = ["Alice"%string; "Bob"%string].
Proof. reflexivity. Qed.

Example nobody_waiting :
  let s := run [ (POST_services reception, 10) ] empty_store in
  app (POST_admin_next "CHANGE_ME" 1) 300 s
  = (mkResponse 404 (DetailBody "No one waiting"), s).
Proof. reflexivity. Qed.

(** ** Facts on [order_by] *)

Section OrderBy.
Context {A : Type}.
Variable key : A -> Z.

Lemma insert_row_perm (x : A) (l : list A) :
  Permutation (insert_row key x l) (x :: l).
Proof.
  induction l as [|y l IH]; cbn.
  - apply Permutation_refl.
  - destruct (key x <=? key y).
    + apply Permutation_refl.
    + eapply perm_trans; [apply perm_skip, IH | apply perm_swap].
Qed.

Lemma order_by_perm (l : list A) : Permutation (order_by key l) l.
Proof.
  induction l as [|x l IH]; cbn.
  - constructor.
  - eapply perm_trans; [apply insert_row_perm | apply perm_skip, IH].
Qed.

Lemma order_by_In (l : list A) (x : A) : In x (order_by key l) <-> In x l.
Proof.
  split; apply Permutation_in;
    [apply order_by_perm | apply Permutation_sym, order_by_perm].
Qed.

Lemma insert_row_sorted (x : A) (l : list A) :
  StronglySorted (key_le key) l -> StronglySorted (key_le key) (insert_row key x l).
Proof.
  induction 1 as [|y l Hs IH Hall]; cbn.
  - repeat constructor.
  - destruct (key x <=? key y) eqn:E.
    + apply Z.leb_le in E. constructor.
      * constructor; assumption.
      * constructor; [exact E|].
        eapply Forall_impl; [|exact Hall].
        intros b Hb. unfold key_le in *. lia.
    + apply Z.leb_gt in E. constructor; [exact IH|].
      assert (Hp : Permutation (insert_row key x l) (x :: l))
        by apply insert_row_perm.
      apply Forall_forall. intros b Hb.
      apply (Permutation_in _ Hp) in Hb. destruct Hb as [<-|Hb].
      * unfold key_le. lia.
      * rewrite Forall_forall in Hall. auto.
Qed.

Lemma order_by_sorted (l : list A) : StronglySorted (key_le key) (order_by key l).
Proof.
  induction l as [|x l IH]; cbn.
  - constructor.
  - apply insert_row_sorted, IH.
Qed.

End OrderBy.

Lemma filter_length_perm {A} (p : A -> bool) (l l' : list A) :
  Permutation l l' -> List.length (filter p l) = List.length (filter p l').
Proof.
  induction 1 as [| x l l' _ IH | x y l | l l' l'' _ IH1 _ IH2]; cbn.
  - reflexivity.
  - destruct (p x); cbn; congruence.
  - destruct (p x), (p y); reflexivity.
  - congruence.
Qed.

Lemma filter_filter {A} (p q : A -> bool) (l : list A) :
  filter p (filter q l) = filter (fun x => q x && p x) l.
Proof.
  induction l as [|x l IH]; cbn; [reflexivity|].
  destruct (q x); cbn; [destruct (p x)|]; congruence.
Qed.

(** ** Facts on primary keys *)

Lemma next_rowid_above (ids : list Z) (i : Z) : In i ids -> i < next_rowid ids.
Proof.
  unfold next_rowid. induction ids as [|j ids IH]; cbn; [tauto|].
  intros [->|H]; [lia|]. specialize (IH H). lia.
Qed.

Lemma next_rowid_fresh (ids : list Z) : ~ In (next_rowid ids) ids.
Proof. intros H. apply next_rowid_above in H. lia. Qed.

Lemma get_ticket_row_In (i : Z) (s : Store) (t : Ticket.t) :
  get_ticket_row i s = Some t -> In t (tickets s) /\ Ticket.id t = i.
Proof.
  unfold get_ticket_row. intros H. apply find_some in H.
  destruct H as [H1 H2]. apply Z.eqb_eq in H2. auto.
Qed.

Lemma get_service_In (i : Z) (s : Store) (svc : Service.t) :
  get_service i s = Some svc -> In svc (services s) /\ Service.id svc = i.
Proof.
  unfold get_service. intros H. apply find_some in H.
  destruct H as [H1 H2]. apply Z.eqb_eq in H2. auto.
Qed.

Lemma firstn_1_hd {A} (l : list A) : hd_error (firstn 1 l) = hd_error l.
Proof. destruct l; reflexivity. Qed.

(** An UPDATE by primary key rewrites one row when keys are unique. *)
Lemma update_unique_row (t t' : Ticket.t) (l : list Ticket.t) :
  NoDup (map Ticket.id l) -> In t l -> Ticket.id t' = Ticket.id t ->
  exists l1 l2,
    l = l1 ++ t :: l2 /\
    map (fun r => if Ticket.id r =? Ticket.id t' then t' else r) l = l1 ++ t' :: l2.
Proof.
  intros Hnd Hin Hid. apply in_split in Hin. destruct Hin as (l1 & l2 & ->).
  exists l1, l2. split; [reflexivity|].
  rewrite map_app in Hnd. cbn in Hnd. apply NoDup_remove_2 in Hnd.
  rewrite map_app. cbn. rewrite Hid, Z.eqb_refl.
  assert (Hsame : forall l0, ~ In (Ticket.id t) (map Ticket.id l0) ->
            map (fun r => if Ticket.id r =? Ticket.id t then t' else r) l0 = l0).
  { induction l0 as [|r l0 IH]; cbn; intros Hn; [reflexivity|].
    destruct (Ticket.id r =? Ticket.id t) eqn:E.
    - apply Z.eqb_eq in E. exfalso. apply Hn. left. exact E.
    - rewrite IH; [reflexivity|]. intros H. apply Hn. right. exact H. }
  rewrite !Hsame; [reflexivity| |]; intros H; apply Hnd, in_or_app; tauto.
Qed.

Lemma select_waiting_In (service_id : Z) (s : Store) (t : Ticket.t) :
  In t (select_waiting service_id s) <->
  In t (tickets s) /\ Ticket.service_id t = service_id /\ Ticket.called t = false.
Proof.
  unfold select_waiting. rewrite filter_In, andb_true_iff, Z.eqb_eq, negb_true_iff.
  tauto.
Qed.

(** The row chosen by [call_next] is a waiting row of the service and no
    waiting row of the service arrived before it. *)
Lemma select_next_earliest (service_id : Z) (s : Store) (t : Ticket.t) :
  select_next service_id s = Some t ->
  In t (select_waiting service_id s) /\
  forall u, In u (select_waiting service_id s) ->
            Ticket.created_at t <= Ticket.created_at u.
Proof.
  unfold select_next. rewrite firstn_1_hd. intros H.
  pose proof (order_by_sorted Ticket.created_at (select_waiting service_id s)) as Hs.
  pose proof (order_by_In Ticket.created_at (select_waiting service_id s)) as Hi.
  destruct (order_by Ticket.created_at (select_waiting service_id s)) as [|x l];
    [discriminate|].
  cbn in H. injection H as ->. split.
  - apply Hi. left. reflexivity.
  - intros u Hu. apply Hi in Hu. destruct Hu as [<-|Hu]; [lia|].
    apply StronglySorted_inv in Hs. destruct Hs as [_ Hall].
    rewrite Forall_forall in Hall. apply Hall, Hu.
Qed.



(** ** Primary keys stay unique *)








Lemma get_ticket_reads (ticket_id : Z) (s : Store) : snd (get_ticket ticket_id s) = s.
Proof.
  unfold get_ticket, _position_in_queue. run_handler.
  destruct (get_ticket_row ticket_id s) as [t|];
    [|destruct (in_int64 _); reflexivity].
  destruct (Ticket.called t); reflexivity.
Qed.

Lemma queue_detail_reads (service_id : Z) (s : Store) :
  snd (queue_detail service_id s) = s.
Proof.
  unfold queue_detail. run_handler.
  destruct (get_service service_id s); [|destruct (in_int64 _)]; reflexivity.
Qed.

Lemma queue_detail_inv (service_id : Z) (s s' : Store) (q : QueueRead.t) :
  queue_detail service_id s = (Return q, s') ->
  exists svc,
    get_service service_id s = Some svc /\ s' = s /\
    q = QueueRead.mk (Service.id svc) (Service.name svc)
          (Z.of_nat
             (List.length
                (filter (fun t => negb (Ticket.called t))
                        (select_service_tickets service_id s))))
          (annotate 1 (select_service_tickets service_id s)).
Proof.
  unfold queue_detail. run_handler.
  destruct (get_service service_id s) as [svc|];
    [|destruct (in_int64 _); discriminate].
  intros H. injection H as <- <-. exists svc. auto.
Qed.

Lemma respond_snd {A} (c : Z) (f : A -> Body) (h : Handler A) (s : Store) :
  snd (respond c f h s) = snd (h s).
Proof. unfold respond. destruct (h s) as [[a|e|x] s']; reflexivity. Qed.

Lemma admin_next_snd (x_api_key : string) (service_id now : Z) (s : Store) :
  snd ((verify_admin x_api_key ;; call_next service_id now) s)
  = if String.eqb x_api_key ADMIN_API_KEY
    then snd (call_next service_id now s) else s.
Proof.
  unfold verify_admin, bind.
  destruct (String.eqb x_api_key ADMIN_API_KEY); reflexivity.
Qed.






Lemma tie_store_reachable : reachable tie_store.
Proof. exists tie_trace. vm_compute. reflexivity. Qed.


(** ** Cancelling *)

Lemma get_ticket_row_none (i : Z) (s : Store) :
  get_ticket_row i s = None <-> forall r, In r (tickets s) -> Ticket.id r <> i.
Proof.
  unfold get_ticket_row. split.
  - intros H r Hr E. apply (find_none _ _ H) in Hr. apply Z.eqb_neq in Hr. auto.
  - intros H. destruct (find _ _) as [t|] eqn:E; [|reflexivity].
    apply find_some in E. destruct E as [Hin E]. apply Z.eqb_eq in E.
    exfalso. exact (H t Hin E).
Qed.

(** C4, as the code has it.  For a [ticket_id] that fits a signed 64-bit
    integer, [cancel_ticket] raises 404 when no row has the id; raises the
    conflict "Already called; cannot cancel" (status 400) when the row is
    called, and then the store, the row included, is as it was; otherwise
    the row is deleted, every other row is kept, and the route answers 204
    with no body. *)
Theorem cancel_ticket_outcomes (ticket_id now : Z) (s : Store) :
  in_int64 ticket_id = true ->
  match get_ticket_row ticket_id s with
  | None =>
      (forall r, In r (tickets s) -> Ticket.id r <> ticket_id) /\
      cancel_ticket ticket_id s
      = (Raised (mkHTTPException 404 "Ticket not found"), s) /\
      app (DELETE_tickets ticket_id) now s
      = (mkResponse 404 (DetailBody "Ticket not found"), s)
  | Some t =>
      if Ticket.called t then
        cancel_ticket ticket_id s
        = (Raised (mkHTTPException 400 "Already called; cannot cancel"), s) /\
        app (DELETE_tickets ticket_id) now s
        = (mkResponse 400 (DetailBody "Already called; cannot cancel"), s) /\
        get_ticket_row ticket_id (snd (cancel_ticket ticket_id s)) = Some t
      else
        exists s',
          cancel_ticket ticket_id s = (Return tt, s') /\
          app (DELETE_tickets ticket_id) now s = (mkResponse 204 NoBody, s') /\
          services s' = services s /\
          get_ticket_row ticket_id s' = None /\
          (forall r, In r (tickets s') <->
                     In r (tickets s) /\ Ticket.id r <> ticket_id)
  end.
Proof.
  intros Hrange.
  destruct (get_ticket_row ticket_id s) as [t|] eqn:Hg.
  - destruct (get_ticket_row_In _ _ _ Hg) as [Hin Hid].
    destruct (Ticket.called t) eqn:Hc.
    + unfold app, respond, cancel_ticket. run_handler. rewrite Hg, Hc. cbn.
      auto.
    + eexists. unfold app, respond, cancel_ticket. run_handler.
      rewrite Hg, Hc. cbn. repeat split.
      * apply get_ticket_row_none. cbn. intros r Hr.
        apply filter_In in Hr. destruct Hr as [_ Hr].
        apply negb_true_iff, Z.eqb_neq in Hr. congruence.
      * apply filter_In in H. tauto.
      * apply filter_In in H. destruct H as [_ H].
        apply negb_true_iff, Z.eqb_neq in H. congruence.
      * intros [Hr Hne]. apply filter_In. split; [exact Hr|].
        apply negb_true_iff, Z.eqb_neq. congruence.
  - split; [apply get_ticket_row_none, Hg|].
    unfold app, respond, cancel_ticket. run_handler. rewrite Hg, Hrange. auto.
Qed.

Lemma cancel_ticket_outcomes_witness :
  app (DELETE_tickets 99) 500 sample_store
  = (mkResponse 404 (DetailBody "Ticket not found"), sample_store) /\
  app (DELETE_tickets 1) 500 sample_store
  = (mkResponse 400 (DetailBody "Already called; cannot cancel"), sample_store) /\
  exists s',
    app (DELETE_tickets 2) 500 sample_store = (mkResponse 204 NoBody, s') /\
    map Ticket.id (tickets s') = [1; 3; 4].
Proof.
  split; [|split].
  - exact (proj2 (proj2 (cancel_ticket_outcomes 99 500 sample_store eq_refl))).
  - exact (proj1 (proj2 (cancel_ticket_outcomes 1 500 sample_store eq_refl))).
  - destruct (cancel_ticket_outcomes 2 500 sample_store eq_refl)
      as (s' & Hc & Happ & _).
    exists s'. split; [exact Happ|].
    vm_compute in Hc. injection Hc as <-. reflexivity.
Defined.

(** C4 as stated fails outside the 64-bit range: no ticket has the id,
    yet the answer is not 404 but the 500 of an uncaught [OverflowError]. *)
Lemma cancel_ticket_out_of_range :
  (forall r, In r (tickets sample_store) -> Ticket.id r <> too_large_key) /\
  cancel_ticket too_large_key sample_store
  = (Unhandled "OverflowError", sample_store) /\
  app (DELETE_tickets too_large_key) 500 sample_store
  = (mkResponse 500 (TextBody "Internal Server Error"), sample_store) /\
  cancel_ticket too_large_key sample_store
  <> (Raised (mkHTTPException 404 "Ticket not found"), sample_store).
Proof.
  split; [|split; [|split]].
  - apply get_ticket_row_none. reflexivity.
  - reflexivity.
  - reflexivity.
  - vm_compute. discriminate.
Qed.

(** ** Creating a service *)

Lemma select_service_by_name_existsb (name : string) (s : Store) :
  existsb (fun r => String.eqb (Service.name r) name) (services s)
  = match select_service_by_name name s with Some _ => true | None => false end.
Proof.
  unfold select_service_by_name.
  induction (services s) as [|r l IH]; cbn; [reflexivity|].
  destruct (String.eqb (Service.name r) name); cbn; [reflexivity|exact IH].
Qed.

(** C7, as the code has it.  Creating a service whose name is already
    taken is answered with status 400 and the detail
    "Service '<name>' already exists", and the store is as it was;
    creating one with a fresh name is answered with 201 and the new row,
    which is appended to the table under a fresh id. *)
Theorem create_service_outcomes (data : ServiceCreate) (now : Z) (s : Store) :
  if existsb (fun r => String.eqb (Service.name r) (sc_name data)) (services s)
  then
    app (POST_services data) now s
    = (mkResponse 400
         (DetailBody ("Service '" ++ sc_name data ++ "' already exists")%string),
       s)
  else
    exists svc,
      app (POST_services data) now s
      = (mkResponse 201 (ServiceBody svc),
         mkStore (services s ++ [svc]) (tickets s)) /\
      Service.name svc = sc_name data /\
      Service.description svc = sc_description data /\
      Service.created_at svc = now /\
      ~ In (Service.id svc) (map Service.id (services s)).
Proof.
  rewrite select_service_by_name_existsb.
  unfold app, respond, create_service. run_handler.
  destruct (select_service_by_name (sc_name data) s); cbn; [reflexivity|].
  eexists. split; [reflexivity|]. cbn. repeat split. apply next_rowid_fresh.
Qed.

(** C7 as stated fails: the duplicate is answered with 400, not 409. *)
Lemma create_service_duplicate_not_409 :
  app (POST_services reception) 500 sample_store
  = (mkResponse 400 (DetailBody "Service 'Reception' already exists"),
     sample_store) /\
  status (fst (app (POST_services reception) 500 sample_store)) <> 409.
Proof. split; [reflexivity|]. vm_compute. discriminate. Qed.

(** ** Registering *)

Lemma find_app_none {A} (p : A -> bool) (l l' : list A) :
  find p l = None -> find p (l ++ l') = find p l'.
Proof.
  induction l as [|x l IH]; cbn; [reflexivity|].
  destruct (p x); [discriminate|exact IH].
Qed.

Lemma find_fresh_rowid (l : list Ticket.t) :
  find (fun r => Ticket.id r =? next_rowid (map Ticket.id l)) l = None.
Proof.
  destruct (find _ l) as [t|] eqn:E; [|reflexivity].
  apply find_some in E. destruct E as [Hin E]. apply Z.eqb_eq in E.
  exfalso. apply (next_rowid_fresh (map Ticket.id l)).
  rewrite <- E. apply in_map, Hin.
Qed.

(** What [_position_in_queue] returns; it reads and never writes. *)
Lemma position_in_queue_value (t : Ticket.t) (s : Store) :
  _position_in_queue t s
  = (Return (if Ticket.called t then 0
             else Z.of_nat (List.length (select_earlier_waiting t s)) + 1), s).
Proof. unfold _position_in_queue. destruct (Ticket.called t); reflexivity. Qed.



Lemma get_service_existsb (id : Z) (s : Store) :
  existsb (fun r => Service.id r =? id) (services s)
  = match get_service id s with Some _ => true | None => false end.
Proof.
  unfold get_service. induction (services s) as [|r l IH]; cbn; [reflexivity|].
  destruct (Service.id r =? id); cbn; [reflexivity|exact IH].
Qed.

(** C5, as the code has it.  For a [service_id] that fits a signed 64-bit
    integer: when no service of the store has the id, [register_ticket]
    raises 404 and creates nothing; when one has, then whatever the name
    (the empty string included) a row is appended to the tickets, with a
    fresh id, the name and service given, [called = False],
    [created_at = now] and no [called_at], and the answer (status 201)
    carries these fields and the position that [_position_in_queue]
    computes in the new store: one more than the number of waiting rows
    of the service that arrived strictly before [now]. *)
Theorem register_ticket_outcomes (data : TicketCreate) (now : Z) (s : Store) :
  in_int64 (tc_service_id data) = true ->
  if existsb (fun r => Service.id r =? tc_service_id data) (services s)
  then
    exists r s',
      register_ticket data now s = (Return r, s') /\
      app (POST_tickets data) now s = (mkResponse 201 (TicketBody r), s') /\
      services s' = services s /\
      tickets s'
      = tickets s ++ [Ticket.mk (TicketRead.id r) (tc_name data)
                                (tc_service_id data) false now None] /\
      ~ In (TicketRead.id r) (map Ticket.id (tickets s)) /\
      TicketRead.name r = tc_name data /\
      TicketRead.service_id r = tc_service_id data /\
      TicketRead.called r = false /\
      TicketRead.created_at r = now /\
      TicketRead.called_at r = None /\
      TicketRead.position r
      = Z.of_nat
          (List.length
             (filter (fun w => Ticket.created_at w <? now)
                     (select_waiting (tc_service_id data) s))) + 1 /\
      get_ticket (TicketRead.id r) s' = (Return r, s')
  else
    register_ticket data now s
    = (Raised (mkHTTPException 404 "Service not found"), s) /\
    app (POST_tickets data) now s
    = (mkResponse 404 (DetailBody "Service not found"), s).
Proof.
  intros Hrange. rewrite get_service_existsb.
  destruct (get_service (tc_service_id data) s) as [svc|] eqn:Hg.
  - destruct (get_service_In _ _ _ Hg) as [_ Hid].
    pose (ticket := Ticket.mk (next_rowid (map Ticket.id (tickets s)))
                              (tc_name data) (tc_service_id data) false now None).
    pose (s' := mkStore (services s) (tickets s ++ [ticket])).
    assert (Hcount :
      List.length (select_earlier_waiting ticket s')
      = List.length (filter (fun w => Ticket.created_at w <? now)
                            (select_waiting (tc_service_id data) s))).
    { unfold select_earlier_waiting, select_waiting, s', ticket. cbn.
      rewrite filter_app, filter_filter. cbn.
      rewrite Z.ltb_irrefl, andb_false_r, app_nil_r. reflexivity. }
    assert (Hreg : register_ticket data now s
                   = (Return (_ticket_to_read ticket (position_of ticket s')), s')).
    { unfold register_ticket, _position_in_queue. run_handler.
      rewrite Hg, Hid. reflexivity. }
    assert (Hfound : get_ticket_row (Ticket.id ticket) s' = Some ticket).
    { unfold get_ticket_row, s', ticket. cbn [tickets Ticket.id].
      rewrite find_app_none by apply find_fresh_rowid.
      cbn. rewrite Z.eqb_refl. reflexivity. }
    exists (_ticket_to_read ticket (position_of ticket s')), s'.
    split; [exact Hreg|]. split.
    { unfold app, respond. rewrite Hreg. reflexivity. }
    split; [reflexivity|]. split; [reflexivity|].
    split; [apply next_rowid_fresh|].
    split; [reflexivity|]. split; [reflexivity|]. split; [reflexivity|].
    split; [reflexivity|]. split; [reflexivity|]. split.
    { cbn [_ticket_to_read TicketRead.position]. unfold position_of.
      cbn [ticket Ticket.called]. rewrite Hcount. reflexivity. }
    cbn [_ticket_to_read TicketRead.id]. unfold get_ticket. run_handler.
    rewrite Hfound, position_in_queue_value. reflexivity.
  - unfold app, respond, register_ticket. run_handler. rewrite Hg, Hrange. auto.
Qed.

Lemma register_ticket_outcomes_witness :
  (exists r s',
     register_ticket (mkTicketCreate "Eve" 1) 500 sample_store = (Return r, s') /\
     r = TicketRead.mk 5 "Eve" 1 3 false 500 None /\
     map Ticket.name (tickets s')
     = ["Alice"; "Bob"; "Dan"; "Carol"; "Eve"]%string) /\
  app (POST_tickets (mkTicketCreate "Eve" 7)) 500 sample_store
  = (mkResponse 404 (DetailBody "Service not found"), sample_store).
Proof.
  split.
  - destruct (register_ticket_outcomes (mkTicketCreate "Eve" 1) 500 sample_store
                eq_refl) as (r & s' & Hreg & _).
    exists r, s'. split; [exact Hreg|].
    vm_compute in Hreg. injection Hreg as <- <-. split; reflexivity.
  - exact (proj2 (register_ticket_outcomes (mkTicketCreate "Eve" 7) 500
                    sample_store eq_refl)).
Defined.

(** C5 as stated fails: an empty name is not refused, the ticket is made
    and answered with its position. *)
Lemma register_empty_name_accepted :
  register_ticket (mkTicketCreate "" 1) 500 sample_store
  = (Return (TicketRead.mk 5 "" 1 3 false 500 None),
     mkStore (services sample_store)
             (tickets sample_store ++ [Ticket.mk 5 "" 1 false 500 None])) /\
  ~ (exists e, fst (register_ticket (mkTicketCreate "" 1) 500 sample_store)
               = Raised e).
Proof.
  split; [reflexivity|].
  intros [e H]. vm_compute in H. discriminate.
Qed.

(** ** The listing of [queue_detail] *)

Lemma filter_perm {A} (p : A -> bool) (l l' : list A) :
  Permutation l l' -> Permutation (filter p l) (filter p l').
Proof.
  induction 1 as [| x l l' _ IH | x y l | l l' l'' _ IH1 _ IH2]; cbn.
  - constructor.
  - destruct (p x); [apply perm_skip|]; exact IH.
  - destruct (p x), (p y); try apply Permutation_refl. apply perm_swap.
  - eapply perm_trans; eassumption.
Qed.

Lemma NoDup_map_inj_in {A} (f : A -> Z) (l : list A) (a b : A) :
  NoDup (map f l) -> In a l -> In b l -> f a = f b -> a = b.
Proof.
  induction l as [|x l IH]; cbn; [tauto|]. intros Hnd Ha Hb E.
  inversion Hnd as [|? ? Hx Hl]; subst.
  destruct Ha as [->|Ha], Hb as [->|Hb]; auto.
  - exfalso. apply Hx. rewrite E. apply in_map, Hb.
  - exfalso. apply Hx. rewrite <- E. apply in_map, Ha.
Qed.

Lemma select_waiting_tickets_of (service_id : Z) (s : Store) :
  select_waiting service_id s = filter waiting (tickets_of service_id s).
Proof. unfold select_waiting, tickets_of. symmetry. apply filter_filter. Qed.

Lemma select_service_tickets_perm (service_id : Z) (s : Store) :
  Permutation (select_service_tickets service_id s) (tickets_of service_id s).
Proof. apply order_by_perm. Qed.

Lemma select_service_tickets_sorted (service_id : Z) (s : Store) :
  StronglySorted (key_le Ticket.created_at) (select_service_tickets service_id s).
Proof. apply order_by_sorted. Qed.

Lemma waiting_count_listing (service_id : Z) (s : Store) :
  List.length (filter waiting (select_service_tickets service_id s))
  = List.length (select_waiting service_id s).
Proof.
  rewrite select_waiting_tickets_of.
  apply filter_length_perm, select_service_tickets_perm.
Qed.

Lemma annotate_length (idx : Z) (l : list Ticket.t) :
  List.length (annotate idx l) = List.length l.
Proof. revert idx. induction l as [|t l IH]; cbn; intros; [|rewrite IH]; reflexivity. Qed.

(** The counter [idx] of the loop, when it reaches index [k], has been
    advanced once for every waiting ticket before [k]. *)
Lemma annotate_nth (l : list Ticket.t) :
  forall (idx : Z) (k : nat) (t : Ticket.t),
    nth_error l k = Some t ->
    nth_error (annotate idx l) k
    = Some (_ticket_to_read t
              (if Ticket.called t then 0
               else idx + Z.of_nat (List.length (filter waiting (firstn k l))))).
Proof.
  induction l as [|x l IH]; intros idx k t H.
  - destruct k; discriminate.
  - destruct k as [|k]; cbn in H |- *.
    + injection H as ->. destruct (Ticket.called t); cbn; f_equal; f_equal; lia.
    + rewrite (IH _ _ _ H).
      assert (Hx : waiting x = negb (Ticket.called x)) by reflexivity.
      rewrite Hx.
      destruct (Ticket.called x); cbn [negb List.length]; [reflexivity|].
      destruct (Ticket.called t); f_equal; f_equal.
      rewrite Nat2Z.inj_succ. lia.
Qed.

(** C8, as the code has it.  For a [service_id] that fits a signed
    64-bit integer: [queue_detail] raises 404 when no service of the store
    has the id.  When one has, it answers (status 200, store unchanged)
    with the id and name of the service, the number of waiting tickets of
    the service, and a listing of all its tickets, called ones included:
    the rows of the service rearranged in ascending [created_at], the
    entry at index [k] carrying the id, name, service, called flag and
    stamps of the row at [k], annotated 0 when called and with its rank
    among the waiting entries otherwise. *)
Theorem queue_detail_listing (service_id now : Z) (s : Store) :
  in_int64 service_id = true ->
  if existsb (fun r => Service.id r =? service_id) (services s)
  then
    exists svc all_tickets q,
      In svc (services s) /\ Service.id svc = service_id /\
      queue_detail service_id s = (Return q, s) /\
      app (GET_queues service_id) now s = (mkResponse 200 (QueueBody q), s) /\
      Permutation all_tickets (tickets_of service_id s) /\
      StronglySorted (key_le Ticket.created_at) all_tickets /\
      QueueRead.service_id q = service_id /\
      QueueRead.service_name q = Service.name svc /\
      QueueRead.waiting q
      = Z.of_nat (List.length (select_waiting service_id s)) /\
      List.length (QueueRead.tickets q) = List.length all_tickets /\
      forall k t,
        nth_error all_tickets k = Some t ->
        exists r,
          nth_error (QueueRead.tickets q) k = Some r /\
          TicketRead.id r = Ticket.id t /\
          TicketRead.name r = Ticket.name t /\
          TicketRead.service_id r = service_id /\
          TicketRead.called r = Ticket.called t /\
          TicketRead.created_at r = Ticket.created_at t /\
          TicketRead.called_at r = Ticket.called_at t /\
          TicketRead.position r
          = if Ticket.called t then 0 else waiting_rank all_tickets k
  else
    queue_detail service_id s
    = (Raised (mkHTTPException 404 "Service not found"), s) /\
    app (GET_queues service_id) now s
    = (mkResponse 404 (DetailBody "Service not found"), s).
Proof.
  intros Hrange. rewrite get_service_existsb.
  destruct (get_service service_id s) as [svc|] eqn:Hg.
  - destruct (get_service_In _ _ _ Hg) as [Hin Hid].
    assert (Hq : queue_detail service_id s
                 = (Return
                      (QueueRead.mk (Service.id svc) (Service.name svc)
                         (Z.of_nat
                            (List.length
                               (filter (fun t => negb (Ticket.called t))
                                       (select_service_tickets service_id s))))
                         (annotate 1 (select_service_tickets service_id s))),
                    s)).
    { unfold queue_detail. run_handler. rewrite Hg. reflexivity. }
    exists svc, (select_service_tickets service_id s). eexists.
    split; [exact Hin|]. split; [exact Hid|]. split; [exact Hq|].
    split; [unfold app, respond; rewrite Hq; reflexivity|].
    cbn [QueueRead.service_id QueueRead.service_name QueueRead.waiting
         QueueRead.tickets].
    split; [apply select_service_tickets_perm|].
    split; [apply select_service_tickets_sorted|].
    split; [exact Hid|]. split; [reflexivity|].
    split; [f_equal; apply waiting_count_listing|].
    split; [apply annotate_length|].
    intros k t H. eexists. split; [exact (annotate_nth _ 1 k t H)|].
    cbn [_ticket_to_read TicketRead.id TicketRead.name TicketRead.service_id
         TicketRead.called TicketRead.created_at TicketRead.called_at
         TicketRead.position].
    repeat split.
    + apply nth_error_In in H.
      apply (Permutation_in _ (select_service_tickets_perm service_id s)) in H.
      unfold tickets_of in H. apply filter_In in H. destruct H as [_ H].
      apply Z.eqb_eq in H. exact H.
    + unfold waiting_rank. destruct (Ticket.called t); lia.
  - unfold app, respond, queue_detail. run_handler. rewrite Hg, Hrange. auto.
Qed.

Lemma queue_detail_listing_witness :
  (exists q,
     app (GET_queues 1) 500 sample_store
     = (mkResponse 200 (QueueBody q), sample_store) /\
     QueueRead.service_name q = "Reception"%string /\
     QueueRead.waiting q = 2 /\
     QueueRead.tickets q
     = [ TicketRead.mk 1 "Alice" 1 0 true 100 (Some 400);
         TicketRead.mk 2 "Bob" 1 1 false 200 None;
         TicketRead.mk 4 "Carol" 1 2 false 300 None ]) /\
  app (GET_queues 7) 500 sample_store
  = (mkResponse 404 (DetailBody "Service not found"), sample_store).
Proof.
  split.
  - destruct (queue_detail_listing 1 500 sample_store eq_refl)
      as (svc & all_tickets & q & _ & _ & Hq & Happ & _).
    exists q. split; [exact Happ|].
    vm_compute in Hq. injection Hq as <-. repeat split.
  - exact (proj2 (queue_detail_listing 7 500 sample_store eq_refl)).
Defined.

(** C8 as stated fails outside the 64-bit range: no service has the id,
    yet the answer is not 404 but the 500 of an uncaught [OverflowError]. *)
Lemma queue_detail_out_of_range :
  existsb (fun r => Service.id r =? too_large_key) (services sample_store)
  = false /\
  queue_detail too_large_key sample_store
  = (Unhandled "OverflowError", sample_store) /\
  app (GET_queues too_large_key) 500 sample_store
  = (mkResponse 500 (TextBody "Internal Server Error"), sample_store) /\
  queue_detail too_large_key sample_store
  <> (Raised (mkHTTPException 404 "Service not found"), sample_store).
Proof.
  split; [reflexivity|]. split; [reflexivity|]. split; [reflexivity|].
  vm_compute. discriminate.
Qed.

(** ** The two position computations *)

Lemma select_earlier_waiting_in (t : Ticket.t) (s : Store) :
  select_earlier_waiting t s
  = earlier_waiting_in (tickets_of (Ticket.service_id t) s) t.
Proof.
  unfold select_earlier_waiting, earlier_waiting_in, tickets_of.
  rewrite filter_filter. apply filter_ext. intros r.
  unfold waiting. rewrite andb_assoc. reflexivity.
Qed.

(** On a listing in ascending [created_at] whose waiting entries arrived
    at distinct times, the loop counter at a waiting entry is the number of
    waiting entries that arrived strictly earlier, plus the start value. *)
Lemma annotate_counts_earlier (l : list Ticket.t) :
  forall idx : Z,
    StronglySorted (key_le Ticket.created_at) l ->
    NoDup (map Ticket.created_at (filter waiting l)) ->
    annotate idx l
    = map (fun t =>
             _ticket_to_read t
               (if Ticket.called t then 0
                else idx + Z.of_nat (List.length (earlier_waiting_in l t))))
          l.
Proof.
  induction l as [|x l IH]; intros idx Hs Hnd; [reflexivity|].
  apply StronglySorted_inv in Hs. destruct Hs as [Hs Hall].
  rewrite Forall_forall in Hall. unfold key_le in Hall.
  assert (Hnone : earlier_waiting_in l x = []).
  { unfold earlier_waiting_in.
    rewrite (filter_ext_in _ (fun _ => false)); [apply filter_false|].
    intros r Hr. specialize (Hall r Hr).
    apply andb_false_iff. right. apply Z.ltb_ge. exact Hall. }
  cbn [annotate map]. f_equal.
  - unfold earlier_waiting_in at 1. cbn [filter].
    rewrite Z.ltb_irrefl, andb_false_r. fold (earlier_waiting_in l x).
    rewrite Hnone. destruct (Ticket.called x); cbn; f_equal; lia.
  - assert (Hx : waiting x = negb (Ticket.called x)) by reflexivity.
    cbn [filter] in Hnd. rewrite Hx in Hnd.
    destruct (Ticket.called x) eqn:Hc; cbn [negb] in Hnd |- *.
    + rewrite (IH idx Hs Hnd). apply map_ext. intros t.
      unfold earlier_waiting_in at 2. cbn [filter].
      rewrite Hx. reflexivity.
    + cbn [map] in Hnd. inversion Hnd as [|? ? Hfresh Hnd']; subst.
      rewrite (IH (idx + 1) Hs Hnd'). apply map_ext_in. intros t Ht.
      destruct (Ticket.called t) eqn:Hct; [reflexivity|].
      f_equal. unfold earlier_waiting_in at 2. cbn [filter].
      rewrite Hx. cbn [negb andb].
      assert (Hlt : Ticket.created_at x < Ticket.created_at t).
      { specialize (Hall t Ht).
        assert (Ticket.created_at x <> Ticket.created_at t); [|lia].
        intros E. apply Hfresh. rewrite E. apply in_map, filter_In.
        split; [exact Ht|]. unfold waiting. rewrite Hct. reflexivity. }
      apply Z.ltb_lt in Hlt. rewrite Hlt. cbn [List.length].
      fold (earlier_waiting_in l t). rewrite Nat2Z.inj_succ. lia.
Qed.

Lemma distinct_arrivals_listing (service_id : Z) (s : Store) :
  distinct_arrivals service_id s ->
  NoDup (map Ticket.created_at
             (filter waiting (select_service_tickets service_id s))).
Proof.
  unfold distinct_arrivals. rewrite select_waiting_tickets_of.
  apply Permutation_NoDup, Permutation_map, filter_perm, Permutation_sym,
    select_service_tickets_perm.
Qed.

(** With distinct arrival times the listing of [queue_detail] is the
    ordered rows, each annotated by [_position_in_queue]. *)
Lemma listing_by_position_in_queue (service_id : Z) (s : Store) :
  distinct_arrivals service_id s ->
  annotate 1 (select_service_tickets service_id s)
  = map (fun t =>
           _ticket_to_read t
             (if Ticket.called t then 0
              else Z.of_nat (List.length (select_earlier_waiting t s)) + 1))
        (select_service_tickets service_id s).
Proof.
  intros Hd.
  rewrite annotate_counts_earlier;
    [| apply select_service_tickets_sorted | apply distinct_arrivals_listing, Hd].
  apply map_ext_in. intros t Ht.
  destruct (Ticket.called t); [reflexivity|]. f_equal.
  rewrite select_earlier_waiting_in.
  assert (Hsvc : Ticket.service_id t = service_id).
  { apply (Permutation_in _ (select_service_tickets_perm service_id s)) in Ht.
    apply filter_In in Ht. destruct Ht as [_ Ht]. apply Z.eqb_eq in Ht. exact Ht. }
  rewrite Hsvc. unfold earlier_waiting_in.
  rewrite (filter_length_perm _ _ _ (select_service_tickets_perm service_id s)).
  lia.
Qed.

(** C9.  For a ticket of a service whose waiting tickets have pairwise
    distinct [created_at], the position that [_position_in_queue] computes,
    which is the one [get_ticket] answers with, is the position that the
    listing of [queue_detail] gives to the entry with the ticket's id. *)
Theorem position_agrees_with_listing
    (s : Store) (t : Ticket.t) (pos : Z) (q : QueueRead.t) :
  wf s ->
  In t (tickets s) ->
  distinct_arrivals (Ticket.service_id t) s ->
  _position_in_queue t s = (Return pos, s) ->
  queue_detail (Ticket.service_id t) s = (Return q, s) ->
  get_ticket (Ticket.id t) s = (Return (_ticket_to_read t pos), s) /\
  In (_ticket_to_read t pos) (QueueRead.tickets q) /\
  forall r, In r (QueueRead.tickets q) -> TicketRead.id r = Ticket.id t ->
            TicketRead.position r = pos.
Proof.
  intros [_ Hnd] Hin Hd Hpos Hq.
  rewrite position_in_queue_value in Hpos. injection Hpos as Hpos.
  assert (Hget : get_ticket_row (Ticket.id t) s = Some t).
  { destruct (get_ticket_row (Ticket.id t) s) as [t0|] eqn:E.
    - destruct (get_ticket_row_In _ _ _ E) as [Hin0 Hid0]. f_equal.
      exact (NoDup_map_inj_in Ticket.id _ _ _ Hnd Hin0 Hin Hid0).
    - exfalso. exact (proj1 (get_ticket_row_none _ _) E t Hin eq_refl). }
  destruct (queue_detail_inv _ _ _ _ Hq) as (svc & _ & _ & ->).
  cbn [QueueRead.tickets].
  rewrite (listing_by_position_in_queue _ _ Hd).
  assert (Hlisted : In t (select_service_tickets (Ticket.service_id t) s)).
  { apply (Permutation_in _ (Permutation_sym (select_service_tickets_perm _ s))).
    apply filter_In. split; [exact Hin | apply Z.eqb_refl]. }
  split; [|split].
  - unfold get_ticket. run_handler. rewrite Hget.
    rewrite position_in_queue_value, Hpos. reflexivity.
  - apply in_map_iff. exists t. rewrite Hpos. auto.
  - intros r Hr Hid. apply in_map_iff in Hr. destruct Hr as (t' & <- & Ht').
    cbn in Hid |- *.
    apply (Permutation_in _ (select_service_tickets_perm _ s)) in Ht'.
    apply filter_In in Ht'. destruct Ht' as [Ht' _].
    rewrite (NoDup_map_inj_in Ticket.id _ _ _ Hnd Ht' Hin Hid). exact Hpos.
Qed.

Ltac nodup_list :=
  repeat (apply NoDup_cons; [cbn; intuition (discriminate || lia)|]);
  apply NoDup_nil.

Lemma sample_store_wf : wf sample_store.
Proof. split; cbn; nodup_list. Defined.

Lemma position_agrees_with_listing_witness :
  let bob := Ticket.mk 2 "Bob" 1 false 200 None in
  exists q,
    queue_detail 1 sample_store = (Return q, sample_store) /\
    get_ticket 2 sample_store = (Return (_ticket_to_read bob 1), sample_store) /\
    In (_ticket_to_read bob 1) (QueueRead.tickets q) /\
    forall r, In r (QueueRead.tickets q) -> TicketRead.id r = 2 ->
              TicketRead.position r = 1.
Proof.
  cbn zeta. eexists. split; [vm_compute; reflexivity|].
  apply (position_agrees_with_listing sample_store
           (Ticket.mk 2 "Bob" 1 false 200 None) 1).
  - exact sample_store_wf.
  - cbn. tauto.
  - unfold distinct_arrivals. cbn. nodup_list.
  - reflexivity.
  - reflexivity.
Defined.

(** ** Positions of the waiting tickets *)

(** In the listing of [queue_detail] the waiting entries carry, in order,
    the start value of the counter and its successors. *)
Lemma annotate_waiting_positions (l : list Ticket.t) :
  forall idx : Z,
    map TicketRead.position
        (filter (fun r => negb (TicketRead.called r)) (annotate idx l))
    = map (fun i => idx + Z.of_nat i)
          (seq 0 (List.length (filter waiting l))).
Proof.
  induction l as [|x l IH]; intros idx; [reflexivity|].
  assert (Hx : waiting x = negb (Ticket.called x)) by reflexivity.
  cbn [annotate filter _ticket_to_read TicketRead.called]. rewrite Hx.
  destruct (Ticket.called x); cbn [negb].
  - apply IH.
  - cbn [map List.length seq]. f_equal; [cbn; lia|].
    rewrite IH, <- seq_shift, map_map. apply map_ext. intros i.
    rewrite Nat2Z.inj_succ. lia.
Qed.

(** The listing of [queue_detail] ranks the waiting tickets 1, 2, ..., N,
    whatever their arrival times. *)
Lemma queue_detail_positions_exact (service_id : Z) (s : Store) (q : QueueRead.t) :
  queue_detail service_id s = (Return q, s) ->
  map TicketRead.position
      (filter (fun r => negb (TicketRead.called r)) (QueueRead.tickets q))
  = map Z.of_nat (seq 1 (List.length (select_waiting service_id s))).
Proof.
  intros Hq. destruct (queue_detail_inv _ _ _ _ Hq) as (svc & _ & _ & ->).
  cbn [QueueRead.tickets].
  rewrite annotate_waiting_positions, waiting_count_listing.
  rewrite <- seq_shift, map_map. apply map_ext. intros i.
  rewrite Nat2Z.inj_succ. lia.
Qed.

(** When the waiting tickets of a service arrived at pairwise distinct
    times, [_position_in_queue] gives them, in arrival order, the positions
    1, 2, ..., N. *)
Lemma position_in_queue_exact_when_distinct (service_id : Z) (s : Store) :
  distinct_arrivals service_id s ->
  map (fun t => fst (_position_in_queue t s))
      (filter waiting (select_service_tickets service_id s))
  = map (fun i => Return (Z.of_nat i))
        (seq 1 (List.length (select_waiting service_id s))).
Proof.
  intros Hd.
  assert (Hq : map TicketRead.position
                 (filter (fun r => negb (TicketRead.called r))
                         (annotate 1 (select_service_tickets service_id s)))
               = map Z.of_nat (seq 1 (List.length (select_waiting service_id s)))).
  { rewrite annotate_waiting_positions, waiting_count_listing.
    rewrite <- seq_shift, map_map. apply map_ext. intros i.
    rewrite Nat2Z.inj_succ. lia. }
  rewrite (listing_by_position_in_queue _ _ Hd), filter_map_swap, map_map in Hq.
  cbn [_ticket_to_read TicketRead.called TicketRead.position] in Hq.
  fold waiting in Hq.
  rewrite <- (map_map Z.of_nat Return), <- Hq, map_map.
  apply map_ext. intros t. rewrite position_in_queue_value. reflexivity.
Qed.

(** C2, at a store where the claim fails.  Two visitors registered for the
    same service under the same clock value: two tickets are waiting, and
    [_position_in_queue] (through [get_ticket]) gives position 1 to both,
    so position 2 is missing and position 1 is repeated, while the listing
    of [queue_detail] ranks the same two tickets 1 and 2. *)
Theorem position_in_queue_repeats_on_tie :
  reachable tie_store /\
  map Ticket.id (select_waiting 1 tie_store) = [1; 2] /\
  map (fun t => fst (_position_in_queue t tie_store)) (select_waiting 1 tie_store)
  = [Return 1; Return 1] /\
  (exists r1 r2,
     get_ticket 1 tie_store = (Return r1, tie_store) /\
     get_ticket 2 tie_store = (Return r2, tie_store) /\
     TicketRead.position r1 = 1 /\ TicketRead.position r2 = 1) /\
  (exists q,
     queue_detail 1 tie_store = (Return q, tie_store) /\
     map TicketRead.id (QueueRead.tickets q) = [1; 2] /\
     map TicketRead.position (QueueRead.tickets q) = [1; 2]).
Proof.
  split; [exact tie_store_reachable|].
  split; [reflexivity|]. split; [reflexivity|]. split.
  - eexists. eexists. split; [vm_compute; reflexivity|].
    split; [vm_compute; reflexivity|]. split; reflexivity.
  - eexists. split; [vm_compute; reflexivity|]. split; reflexivity.
Qed.

(** ** A called ticket stays called *)

Lemma find_app_some {A} (p : A -> bool) (l l' : list A) (a : A) :
  find p l = Some a -> find p (l ++ l') = Some a.
Proof.
  induction l as [|x l IH]; cbn; [discriminate|].
  destruct (p x); [trivial|exact IH].
Qed.

Lemma find_delete_other (i j : Z) (l : list Ticket.t) :
  i <> j ->
  find (fun r => Ticket.id r =? i)
       (filter (fun r => negb (Ticket.id r =? j)) l)
  = find (fun r => Ticket.id r =? i) l.
Proof.
  intros Hij. induction l as [|x l IH]; cbn; [reflexivity|].
  destruct (Ticket.id x =? j) eqn:Ej; cbn.
  - apply Z.eqb_eq in Ej. rewrite IH.
    destruct (Ticket.id x =? i) eqn:Ei; [|reflexivity].
    apply Z.eqb_eq in Ei. congruence.
  - destruct (Ticket.id x =? i); [reflexivity|exact IH].
Qed.

Lemma find_update_called (i : Z) (t' : Ticket.t) (l : list Ticket.t) :
  Ticket.called t' = true ->
  (exists t, find (fun r => Ticket.id r =? i) l = Some t /\ Ticket.called t = true) ->
  exists t,
    find (fun r => Ticket.id r =? i)
         (map (fun r => if Ticket.id r =? Ticket.id t' then t' else r) l) = Some t /\
    Ticket.called t = true.
Proof.
  intros Hc'. induction l as [|x l IH]; cbn; intros (t & Hf & Hc); [discriminate|].
  destruct (Ticket.id x =? Ticket.id t') eqn:E.
  - apply Z.eqb_eq in E. rewrite E in Hf.
    destruct (Ticket.id t' =? i); [exists t'; auto|].
    apply IH. exists t. auto.
  - destruct (Ticket.id x =? i).
    + injection Hf as ->. exists t. auto.
    + apply IH. exists t. auto.
Qed.

Lemma cancel_ticket_keeps_called (i ticket_id : Z) (s : Store) :
  called_row i s -> called_row i (snd (cancel_ticket ticket_id s)).
Proof.
  intros (t & Hg & Hc). unfold cancel_ticket. run_handler.
  destruct (get_ticket_row ticket_id s) as [u|] eqn:Hu; cbn;
    [|destruct (in_int64 _); exists t; auto].
  destruct (Ticket.called u) eqn:Huc; cbn; [exists t; auto|].
  destruct (get_ticket_row_In _ _ _ Hu) as [_ Hid].
  assert (Hne : i <> Ticket.id u).
  { intros ->. rewrite Hid in Hg. congruence. }
  exists t. split; [|exact Hc]. unfold get_ticket_row. cbn.
  rewrite (find_delete_other _ _ _ Hne). exact Hg.
Qed.

Lemma call_next_keeps_called (i service_id now : Z) (s : Store) :
  called_row i s -> called_row i (snd (call_next service_id now s)).
Proof.
  intros H. unfold call_next. run_handler.
  destruct (select_next service_id s) as [c|]; cbn; [|exact H].
  unfold called_row, get_ticket_row. cbn.
  apply (find_update_called i (mark_called c now)); [reflexivity|exact H].
Qed.

Lemma register_ticket_keeps_called (i : Z) (data : TicketCreate) (now : Z) (s : Store) :
  called_row i s -> called_row i (snd (register_ticket data now s)).
Proof.
  intros (t & Hg & Hc). unfold register_ticket, _position_in_queue. run_handler.
  destruct (get_service (tc_service_id data) s); cbn;
    [|destruct (in_int64 _); exists t; auto].
  exists t. split; [|exact Hc]. apply find_app_some. exact Hg.
Qed.

Lemma create_service_keeps_tickets (data : ServiceCreate) (now : Z) (s : Store) :
  tickets (snd (create_service data now s)) = tickets s.
Proof.
  unfold create_service. run_handler.
  destruct (select_service_by_name (sc_name data) s); reflexivity.
Qed.

Lemma app_keeps_called (i : Z) (req : Request) (now : Z) (s : Store) :
  called_row i s -> called_row i (snd (app req now s)).
Proof.
  intros H. destruct req; cbn [app]; rewrite respond_snd.
  - unfold called_row, get_ticket_row. rewrite create_service_keeps_tickets.
    exact H.
  - exact H.
  - apply register_ticket_keeps_called, H.
  - rewrite get_ticket_reads. exact H.
  - apply cancel_ticket_keeps_called, H.
  - rewrite queue_detail_reads. exact H.
  - rewrite admin_next_snd. destruct (String.eqb x_api_key ADMIN_API_KEY);
      [apply call_next_keeps_called|]; exact H.
  - exact H.
Qed.

Lemma run_keeps_called (i : Z) (trace : list (Request * Z)) (s : Store) :
  called_row i s -> called_row i (run trace s).
Proof.
  revert s. induction trace as [|[req now] trace IH]; cbn; intros s H;
    [exact H|]. apply IH, app_keeps_called, H.
Qed.

(** C3.  If the ticket found under an id is called, then after any
    sequence of requests to the server the ticket found under that id is
    still called, [_position_in_queue] gives it 0, and [get_ticket] answers
    with position 0. *)
Theorem called_is_forever
    (ticket_id : Z) (t : Ticket.t) (s : Store) (trace : list (Request * Z)) :
  get_ticket_row ticket_id s = Some t ->
  Ticket.called t = true ->
  exists t' r,
    get_ticket_row ticket_id (run trace s) = Some t' /\
    Ticket.called t' = true /\
    _position_in_queue t' (run trace s) = (Return 0, run trace s) /\
    get_ticket ticket_id (run trace s) = (Return r, run trace s) /\
    TicketRead.id r = ticket_id /\
    TicketRead.called r = true /\
    TicketRead.position r = 0.
Proof.
  intros Hg Hc.
  destruct (run_keeps_called ticket_id trace s) as (t' & Hg' & Hc').
  { exists t. auto. }
  exists t', (_ticket_to_read t' 0).
  destruct (get_ticket_row_In _ _ _ Hg') as [_ Hid].
  assert (Hp : _position_in_queue t' (run trace s) = (Return 0, run trace s)).
  { rewrite position_in_queue_value, Hc'. reflexivity. }
  repeat split; try assumption.
  unfold get_ticket. run_handler. rewrite Hg'.
  rewrite position_in_queue_value, Hc'. reflexivity.
Qed.

Lemma called_is_forever_witness :
  let later :=
    [ (DELETE_tickets 1, 500);
      (POST_tickets (mkTicketCreate "Eve" 1), 510);
      (POST_admin_next "CHANGE_ME" 1, 520);
      (DELETE_tickets 3, 530);
      (POST_admin_next "CHANGE_ME" 1, 540);
      (DELETE_tickets 1, 550) ] in
  exists t' r,
    get_ticket_row 1 (run later sample_store) = Some t' /\
    Ticket.called t' = true /\
    _position_in_queue t' (run later sample_store)
    = (Return 0, run later sample_store) /\
    get_ticket 1 (run later sample_store) = (Return r, run later sample_store) /\
    TicketRead.id r = 1 /\
    TicketRead.called r = true /\
    TicketRead.position r = 0.
Proof.
  cbn zeta.
  apply (called_is_forever 1 (Ticket.mk 1 "Alice" 1 true 100 (Some 400))).
  - reflexivity.
  - reflexivity.
Defined.

(** ** Services do not interfere *)

Lemma tickets_of_delete_other (T : Z) (t : Ticket.t) (l : list Ticket.t) :
  NoDup (map Ticket.id l) -> In t l -> Ticket.service_id t <> T ->
  filter (fun r => Ticket.service_id r =? T)
         (filter (fun r => negb (Ticket.id r =? Ticket.id t)) l)
  = filter (fun r => Ticket.service_id r =? T) l.
Proof.
  intros Hnd Hin Hne. rewrite filter_filter. apply filter_ext_in.
  intros r Hr. destruct (Ticket.id r =? Ticket.id t) eqn:E; [|reflexivity].
  apply Z.eqb_eq in E.
  rewrite (NoDup_map_inj_in Ticket.id _ _ _ Hnd Hr Hin E). cbn.
  symmetry. apply Z.eqb_neq. exact Hne.
Qed.

Lemma tickets_of_update_other (T : Z) (t t' : Ticket.t) (l : list Ticket.t) :
  NoDup (map Ticket.id l) -> In t l -> Ticket.id t' = Ticket.id t ->
  Ticket.service_id t <> T -> Ticket.service_id t' <> T ->
  filter (fun r => Ticket.service_id r =? T)
         (map (fun r => if Ticket.id r =? Ticket.id t' then t' else r) l)
  = filter (fun r => Ticket.service_id r =? T) l.
Proof.
  intros Hnd Hin Hid Hne Hne'.
  destruct (update_unique_row t t' l Hnd Hin Hid) as (l1 & l2 & -> & ->).
  rewrite !filter_app. cbn.
  apply Z.eqb_neq in Hne, Hne'. rewrite Hne, Hne'. reflexivity.
Qed.

(** C10.  Let S and T be distinct services.  Registering a ticket for S,
    cancelling a ticket of S and calling the next ticket of S leave the
    rows of T (in their order, with all their fields) and the table of
    services as they were. *)
Theorem other_services_untouched (S T : Z) (now : Z) (s : Store) :
  wf s ->
  S <> T ->
  (forall name,
     let s' := snd (register_ticket (mkTicketCreate name S) now s) in
     tickets_of T s' = tickets_of T s /\ services s' = services s) /\
  (forall ticket_id t,
     get_ticket_row ticket_id s = Some t -> Ticket.service_id t = S ->
     let s' := snd (cancel_ticket ticket_id s) in
     tickets_of T s' = tickets_of T s /\ services s' = services s) /\
  (let s' := snd (call_next S now s) in
   tickets_of T s' = tickets_of T s /\ services s' = services s).
Proof.
  intros [_ Hnd] HST. split; [|split].
  - intros name. unfold register_ticket, _position_in_queue. run_handler.
    cbn [tc_service_id tc_name].
    destruct (get_service S s) as [svc|] eqn:Hg; cbn;
      [|destruct (in_int64 _); auto].
    destruct (get_service_In _ _ _ Hg) as [_ Hid].
    split; [|reflexivity]. unfold tickets_of. cbn.
    rewrite filter_app. cbn. rewrite Hid.
    apply Z.eqb_neq in HST. rewrite HST. apply app_nil_r.
  - intros ticket_id t Hg Hsvc. unfold cancel_ticket. run_handler.
    rewrite Hg. destruct (Ticket.called t); cbn; [auto|].
    split; [|reflexivity]. unfold tickets_of. cbn.
    destruct (get_ticket_row_In _ _ _ Hg) as [Hin _].
    apply tickets_of_delete_other; [exact Hnd|exact Hin|congruence].
  - unfold call_next. run_handler.
    destruct (select_next S s) as [c|] eqn:Hn; cbn; [|auto].
    split; [|reflexivity]. unfold tickets_of. cbn.
    destruct (select_next_earliest _ _ _ Hn) as [Hin _].
    apply select_waiting_In in Hin. destruct Hin as (Hin & Hsvc & _).
    apply (tickets_of_update_other T c (mark_called c now));
      [exact Hnd|exact Hin|reflexivity|congruence|cbn; congruence].
Qed.

Lemma other_services_untouched_witness :
  let cafe := tickets_of 2 sample_store in
  cafe = [Ticket.mk 3 "Dan" 2 false 250 None] /\
  tickets_of 2 (snd (register_ticket (mkTicketCreate "Eve" 1) 500 sample_store))
  = cafe /\
  tickets_of 2 (snd (cancel_ticket 2 sample_store)) = cafe /\
  tickets_of 2 (snd (call_next 1 500 sample_store)) = cafe /\
  services (snd (call_next 1 500 sample_store)) = services sample_store.
Proof.
  cbn zeta.
  assert (Hne : 1 <> 2) by lia.
  destruct (other_services_untouched 1 2 500 sample_store sample_store_wf Hne)
    as (Hreg & Hcancel & Hcall).
  split; [reflexivity|].
  split; [exact (proj1 (Hreg "Eve"%string))|].
  split; [|exact Hcall].
  exact (proj1 (Hcancel 2 (Ticket.mk 2 "Bob" 1 false 200 None) eq_refl eq_refl)).
Defined.

(** ** Calls served one after the other *)







(* ================================================================== *)
(** * Further properties of the server *)

(** ** Every request is one of the guarded writes *)

Lemma app_effect (req : Request) (now : Z) (s : Store) :
  effect now s (snd (app req now s)).
Proof.
  destruct req; cbn [app]; rewrite respond_snd.
  - unfold create_service. run_handler.
    destruct (select_service_by_name (sc_name data) s) eqn:E; cbn.
    + constructor.
    + apply effect_new_service. exact E.
  - constructor.
  - unfold register_ticket, _position_in_queue. run_handler.
    destruct (get_service (tc_service_id data) s) as [svc|] eqn:E; cbn.
    + apply effect_new_ticket.
      destruct (get_service_In _ _ _ E) as [_ ->]. exact E.
    + destruct (in_int64 _); constructor.
  - rewrite get_ticket_reads. constructor.
  - unfold cancel_ticket. run_handler.
    destruct (get_ticket_row ticket_id s) as [t|] eqn:E; cbn;
      [|destruct (in_int64 _); constructor].
    destruct (Ticket.called t) eqn:Hc; cbn; [constructor|].
    apply effect_delete; [|exact Hc].
    destruct (get_ticket_row_In _ _ _ E) as [_ ->]. exact E.
  - rewrite queue_detail_reads. constructor.
  - rewrite admin_next_snd.
    destruct (String.eqb x_api_key ADMIN_API_KEY); [|constructor].
    unfold call_next. run_handler.
    destruct (select_next service_id s) as [c|] eqn:E; cbn; [|constructor].
    apply (effect_call now s service_id c E).
  - constructor.
Qed.

Lemma run_invariant (P : Store -> Prop) :
  (forall now s s', effect now s s' -> P s -> P s') ->
  forall trace s, P s -> P (run trace s).
Proof.
  intros Hstep. induction trace as [|[req now] trace IH]; cbn; intros s H;
    [exact H|]. apply IH. exact (Hstep now _ _ (app_effect req now s) H).
Qed.

(** ** Invariants of the stores a run can reach *)

Lemma select_service_by_name_none (name : string) (s : Store) :
  select_service_by_name name s = None ->
  ~ In name (map Service.name (services s)).
Proof.
  unfold select_service_by_name.
  induction (services s) as [|r l IH]; cbn; [tauto|].
  destruct (String.eqb (Service.name r) name) eqn:E; cbn; [discriminate|].
  apply String.eqb_neq in E. intros H [H1|H2]; [exact (E H1)|exact (IH H H2)].
Qed.

Lemma NoDup_snoc {A} (l : list A) (x : A) : NoDup l -> ~ In x l -> NoDup (l ++ [x]).
Proof.
  intros Hl Hx. apply NoDup_app; [exact Hl | repeat constructor; cbn; tauto |].
  intros a Ha [<-|[]]. exact (Hx Ha).
Qed.

(** No two services of a reachable store share a name. *)
Theorem service_names_unique (trace : list (Request * Z)) :
  NoDup (map Service.name (services (run trace empty_store))).
Proof.
  apply (run_invariant (fun s => NoDup (map Service.name (services s))));
    [|constructor].
  intros now s s' He H. destruct He; cbn [services]; try exact H.
  rewrite map_app. cbn [map Service.name].
  apply NoDup_snoc; [exact H|]. apply select_service_by_name_none. assumption.
Qed.

Lemma in_update_inv (k' : Ticket.t) (l : list Ticket.t) (r' : Ticket.t) :
  In r' (map (fun r => if Ticket.id r =? Ticket.id k' then k' else r) l) ->
  (r' = k' /\ exists r, In r l /\ Ticket.id r = Ticket.id k') \/
  (In r' l /\ Ticket.id r' <> Ticket.id k').
Proof.
  intros H. apply in_map_iff in H. destruct H as (r & Hr & Hin).
  destruct (Ticket.id r =? Ticket.id k') eqn:E.
  - left. apply Z.eqb_eq in E. split; [auto|]. exists r. auto.
  - right. apply Z.eqb_neq in E. subst r'. auto.
Qed.

Lemma get_service_snoc (i : Z) (s : Store) (svc new : Service.t) (tk : list Ticket.t) :
  get_service i s = Some svc ->
  get_service i (mkStore (services s ++ [new]) tk) = Some svc.
Proof. unfold get_service. cbn [services]. apply find_app_some. Qed.

(** Every ticket of a reachable store belongs to a service of the store,
    so the queue of its service can always be shown. *)
Theorem tickets_reference_services (trace : list (Request * Z)) :
  let s := run trace empty_store in
  Forall (fun t =>
            get_service (Ticket.service_id t) s <> None /\
            exists q, queue_detail (Ticket.service_id t) s = (Return q, s))
         (tickets s).
Proof.
  cbn zeta.
  assert (H : Forall (fun t => get_service (Ticket.service_id t)
                                 (run trace empty_store) <> None)
                     (tickets (run trace empty_store))).
  { apply (run_invariant
             (fun s => Forall (fun t => get_service (Ticket.service_id t) s <> None)
                              (tickets s))); [|constructor].
    intros now s s' He H. rewrite Forall_forall in H.
    apply Forall_forall. destruct He; cbn [tickets].
    - exact H.
    - intros t Ht. specialize (H t Ht).
      destruct (get_service (Ticket.service_id t) s) as [svc|] eqn:E;
        [|congruence].
      erewrite get_service_snoc; [discriminate|exact E].
    - intros t Ht. apply in_app_iff in Ht. destruct Ht as [Ht|[<-|[]]].
      + exact (H t Ht).
      + cbn [Ticket.service_id]. unfold get_service in *. cbn [services].
        congruence.
    - intros t0 Ht. apply filter_In in Ht. exact (H t0 (proj1 Ht)).
    - intros t Ht. apply (in_update_inv (mark_called c now)) in Ht.
      destruct Ht as [[-> (r & Hr & _)]|[Ht _]]; [|exact (H t Ht)].
      cbn [mark_called Ticket.service_id].
      match goal with Hn : select_next _ _ = Some _ |- _ =>
        destruct (select_next_earliest _ _ _ Hn) as [Hin _] end.
      apply select_waiting_In in Hin. apply (H c), Hin. }
  eapply Forall_impl; [|exact H]. intros t Ht. split; [exact Ht|].
  unfold queue_detail. run_handler.
  destruct (get_service (Ticket.service_id t) (run trace empty_store)) eqn:E;
    [eexists; reflexivity|congruence].
Qed.

(** In a reachable store a ticket is called exactly when it carries a
    [called_at] stamp. *)
Theorem called_iff_stamped (trace : list (Request * Z)) :
  Forall (fun t => Ticket.called t = true <-> Ticket.called_at t <> None)
         (tickets (run trace empty_store)).
Proof.
  apply (run_invariant
           (fun s => Forall (fun t => Ticket.called t = true
                                      <-> Ticket.called_at t <> None)
                            (tickets s))); [|constructor].
  intros now s s' He H. rewrite Forall_forall in H.
  apply Forall_forall. destruct He; cbn [tickets]; try exact H.
  - intros t Ht. apply in_app_iff in Ht. destruct Ht as [Ht|[<-|[]]].
    + exact (H t Ht).
    + cbn. split; [discriminate|congruence].
  - intros t0 Ht. apply filter_In in Ht. exact (H t0 (proj1 Ht)).
  - intros t Ht. apply (in_update_inv (mark_called c now)) in Ht.
    destruct Ht as [[-> _]|[Ht _]]; [|exact (H t Ht)].
    cbn. split; [discriminate|reflexivity].
Qed.

(** No request deletes or rewrites a service: the table only grows at its
    end. *)
Theorem services_only_appended (trace : list (Request * Z)) (s : Store) :
  exists added, services (run trace s) = services s ++ added.
Proof.
  apply (run_invariant (fun s' => exists added, services s' = services s ++ added)).
  - intros now s1 s2 He [added H]. destruct He; cbn [services];
      try (exists added; exact H).
    eexists. rewrite H, <- app_assoc. reflexivity.
  - exists []. symmetry. apply app_nil_r.
Qed.

(** ** First come, first served *)

Lemma stamps_within_later (c c' : Z) (s : Store) :
  c <= c' -> stamps_within c s -> stamps_within c' s.
Proof.
  intros Hc H t Ht. destruct (H t Ht) as [H1 H2]. split; [lia|].
  destruct (Ticket.called_at t); [lia|exact I].
Qed.

Lemma effect_keeps_order (c now : Z) (s s' : Store) :
  effect now s s' -> c <= now ->
  stamps_within c s /\ fifo s -> stamps_within now s' /\ fifo s'.
Proof.
  intros He Hc [Hst Hf].
  pose proof (stamps_within_later c now s Hc Hst) as Hst'.
  destruct He as [| name description Hfree | name svc Hsvc | d Hd Hdc | sid k Hk].
  - auto.
  - auto.
  - split.
    + intros t Ht. cbn [tickets] in Ht. apply in_app_iff in Ht.
      destruct Ht as [Ht|[<-|[]]]; [exact (Hst' t Ht)|]. cbn. split; [lia|exact I].
    + intros t u Ht Hu Hsame Htc Huc. cbn [tickets] in Ht, Hu.
      apply in_app_iff in Ht, Hu.
      destruct Ht as [Ht|[<-|[]]]; [|discriminate].
      destruct Hu as [Hu|[<-|[]]]; [exact (Hf t u Ht Hu Hsame Htc Huc)|].
      cbn. destruct (Hst t Ht) as [H _]. lia.
  - split.
    + intros t Ht. cbn [tickets] in Ht. apply filter_In in Ht.
      exact (Hst' t (proj1 Ht)).
    + intros t u Ht Hu. cbn [tickets] in Ht, Hu. apply filter_In in Ht, Hu.
      exact (Hf t u (proj1 Ht) (proj1 Hu)).
  - destruct (select_next_earliest _ _ _ Hk) as [Hkw Hmin].
    pose proof Hkw as Hkin. apply select_waiting_In in Hkin.
    destruct Hkin as (Hkin & Hksvc & Hkc).
    split.
    + intros t Ht. cbn [tickets] in Ht.
      apply (in_update_inv (mark_called k now)) in Ht.
      destruct Ht as [[-> _]|[Ht _]]; [|exact (Hst' t Ht)].
      cbn. destruct (Hst k Hkin) as [H _]. lia.
    + intros t u Ht Hu Hsame Htc Huc. cbn [tickets] in Ht, Hu.
      apply (in_update_inv (mark_called k now)) in Ht, Hu.
      destruct Hu as [[-> _]|[Hu _]]; [discriminate|].
      destruct Ht as [[-> _]|[Ht _]]; [|exact (Hf t u Ht Hu Hsame Htc Huc)].
      cbn in Hsame |- *. apply Hmin, select_waiting_In. repeat split; auto.
      congruence.
Qed.

Lemma run_keeps_order (trace : list (Request * Z)) :
  forall (c : Z) (s : Store),
    clock_monotone c trace = true ->
    stamps_within c s /\ fifo s ->
    exists c', stamps_within c' (run trace s) /\ fifo (run trace s).
Proof.
  induction trace as [|[req now] trace IH]; cbn; intros c s Hm H.
  - exists c. exact H.
  - apply andb_true_iff in Hm. destruct Hm as [Hc Hm]. apply Z.leb_le in Hc.
    apply (IH now _ Hm).
    exact (effect_keeps_order c now _ _ (app_effect req now s) Hc H).
Qed.

Lemma empty_store_order (c : Z) : stamps_within c empty_store /\ fifo empty_store.
Proof. split; [intros t []|intros t u []]. Qed.

(** When the clock never goes back, nobody is overtaken: in the store a
    run reaches, a called ticket of a service arrived no later than every
    ticket of that service that is still waiting. *)
Theorem nobody_is_overtaken (c : Z) (trace : list (Request * Z)) :
  clock_monotone c trace = true ->
  forall t u,
    In t (tickets (run trace empty_store)) ->
    In u (tickets (run trace empty_store)) ->
    Ticket.service_id t = Ticket.service_id u ->
    Ticket.called t = true -> Ticket.called u = false ->
    Ticket.created_at t <= Ticket.created_at u.
Proof.
  intros Hm.
  destruct (run_keeps_order trace c empty_store Hm (empty_store_order c))
    as (c' & _ & Hf). exact Hf.
Qed.

Lemma nobody_is_overtaken_witness :
  clock_monotone 0 sample_trace = true /\
  Ticket.created_at (Ticket.mk 1 "Alice" 1 true 100 (Some 400))
  <= Ticket.created_at (Ticket.mk 4 "Carol" 1 false 300 None).
Proof.
  split; [reflexivity|].
  apply (nobody_is_overtaken 0 sample_trace eq_refl);
    [cbn; tauto | cbn; tauto | reflexivity | reflexivity | reflexivity].
Defined.

(** When the clock never goes back, no ticket carries a call stamp that is
    earlier than its arrival. *)
Theorem called_after_arrival (c : Z) (trace : list (Request * Z)) :
  clock_monotone c trace = true ->
  Forall (fun t => match Ticket.called_at t with
                   | Some a => Ticket.created_at t <= a
                   | None => True
                   end)
         (tickets (run trace empty_store)).
Proof.
  intros Hm.
  destruct (run_keeps_order trace c empty_store Hm (empty_store_order c))
    as (c' & Hst & _).
  apply Forall_forall. intros t Ht. destruct (Hst t Ht) as [_ H].
  destruct (Ticket.called_at t); [exact (proj1 H)|exact I].
Qed.

Lemma called_after_arrival_witness :
  Forall (fun t => match Ticket.called_at t with
                   | Some a => Ticket.created_at t <= a
                   | None => True
                   end)
         (tickets (run sample_trace empty_store)).
Proof. exact (called_after_arrival 0 sample_trace eq_refl). Defined.

(** ** Failed and read-only requests *)

Lemma effect_of_raise {A} (h : Handler A) (s : Store) :
  match h s with
  | (Return _, _) => True
  | (_, s') => s' = s
  end ->
  forall (success : Z) (to_body : A -> Body),
    success < 400 ->
    400 <= status (fst (respond success to_body h s)) ->
    snd (respond success to_body h s) = s.
Proof.
  intros Hr success to_body Hs. unfold respond.
  destruct (h s) as [[a|e|x] s'] eqn:E; cbn; [lia| |]; intros _; exact Hr.
Qed.

(** A request that is answered with an error status (400 or above) has
    changed nothing in the store. *)
Theorem error_leaves_store (req : Request) (now : Z) (s : Store) :
  400 <= status (fst (app req now s)) ->
  snd (app req now s) = s.
Proof.
  destruct req; cbn [app]; apply effect_of_raise; try lia.
  - unfold create_service. run_handler.
    destruct (select_service_by_name (sc_name data) s); cbn; auto.
  - unfold list_services, session_exec. exact I.
  - unfold register_ticket, _position_in_queue. run_handler.
    destruct (get_service (tc_service_id data) s); cbn;
      [|destruct (in_int64 _)]; auto.
  - unfold get_ticket, _position_in_queue. run_handler.
    destruct (get_ticket_row ticket_id s) as [t|];
      [|destruct (in_int64 _); reflexivity].
    destruct (Ticket.called t); cbn; auto.
  - unfold cancel_ticket. run_handler.
    destruct (get_ticket_row ticket_id s) as [t|];
      [|destruct (in_int64 _); reflexivity].
    destruct (Ticket.called t); cbn; auto.
  - unfold queue_detail. run_handler.
    destruct (get_service service_id s); cbn;
      [|destruct (in_int64 _)]; auto.
  - unfold verify_admin, call_next. run_handler.
    destruct (String.eqb x_api_key ADMIN_API_KEY); [|reflexivity].
    destruct (select_next service_id s); cbn; auto.
  - unfold stats, session_exec. exact I.
Qed.

Lemma error_leaves_store_witness :
  status (fst (app (DELETE_tickets 1) 500 sample_store)) = 400 /\
  snd (app (DELETE_tickets 1) 500 sample_store) = sample_store.
Proof.
  split; [reflexivity|].
  apply (error_leaves_store (DELETE_tickets 1) 500 sample_store).
  vm_compute. discriminate.
Defined.

(** The GET routes never write: whatever they answer, the store is as it
    was. *)
Theorem get_routes_read_only (req : Request) (now : Z) (s : Store) :
  is_get req = true -> snd (app req now s) = s.
Proof.
  destruct req; cbn [is_get]; try discriminate; intros _; cbn [app];
    rewrite respond_snd.
  - reflexivity.
  - apply get_ticket_reads.
  - apply queue_detail_reads.
  - reflexivity.
Qed.

Lemma get_routes_read_only_witness :
  snd (app (GET_queues 1) 500 sample_store) = sample_store.
Proof. exact (get_routes_read_only (GET_queues 1) 500 sample_store eq_refl). Defined.

(** Without the exact admin key nobody is called: the route answers 401
    "Invalid API key" and the store is as it was, whether or not somebody
    is waiting. *)
Theorem admin_key_required (x_api_key : string) (service_id now : Z) (s : Store) :
  x_api_key <> ADMIN_API_KEY ->
  app (POST_admin_next x_api_key service_id) now s
  = (mkResponse 401 (DetailBody "Invalid API key"), s).
Proof.
  intros H. apply String.eqb_neq in H.
  cbn [app]. unfold respond, verify_admin, bind. rewrite H. reflexivity.
Qed.

Lemma admin_key_required_witness :
  app (POST_admin_next "change_me" 1) 500 sample_store
  = (mkResponse 401 (DetailBody "Invalid API key"), sample_store).
Proof.
  apply (admin_key_required "change_me" 1 500 sample_store).
  vm_compute. discriminate.
Defined.

(** ** Round trips *)

Lemma filter_fresh_rowid (l : list Ticket.t) :
  filter (fun r => negb (Ticket.id r =? next_rowid (map Ticket.id l))) l = l.
Proof.
  apply forallb_filter_id, forallb_forall. intros r Hr.
  apply negb_true_iff, Z.eqb_neq. intros E.
  apply (next_rowid_fresh (map Ticket.id l)). rewrite <- E. apply in_map, Hr.
Qed.

Lemma register_ticket_inv (data : TicketCreate) (now : Z) (s s' : Store)
    (r : TicketRead.t) :
  register_ticket data now s = (Return r, s') ->
  let ticket := Ticket.mk (next_rowid (map Ticket.id (tickets s)))
                          (tc_name data) (tc_service_id data) false now None in
  s' = mkStore (services s) (tickets s ++ [ticket]) /\
  r = _ticket_to_read ticket (position_of ticket s').
Proof.
  unfold register_ticket, _position_in_queue. run_handler.
  destruct (get_service (tc_service_id data) s) as [svc|] eqn:E;
    [|destruct (in_int64 _); discriminate].
  destruct (get_service_In _ _ _ E) as [_ Hid]. rewrite Hid. cbn.
  intros H. injection H as <- <-. split; reflexivity.
Qed.

(** A ticket that was just registered is found again under the id it was
    given: [get_ticket] answers with exactly what [register_ticket]
    answered. *)
Theorem register_then_get (data : TicketCreate) (now : Z) (s s' : Store)
    (r : TicketRead.t) :
  register_ticket data now s = (Return r, s') ->
  get_ticket (TicketRead.id r) s' = (Return r, s').
Proof.
  intros H. destruct (register_ticket_inv _ _ _ _ _ H) as [Hs' Hr].
  cbn zeta in *. rewrite Hr. cbn [_ticket_to_read TicketRead.id Ticket.id].
  unfold get_ticket. run_handler.
  assert (Hg : get_ticket_row (next_rowid (map Ticket.id (tickets s))) s'
               = Some (Ticket.mk (next_rowid (map Ticket.id (tickets s)))
                                 (tc_name data) (tc_service_id data)
                                 false now None)).
  { rewrite Hs'. unfold get_ticket_row. cbn [tickets].
    rewrite find_app_none by apply find_fresh_rowid.
    cbn. rewrite Z.eqb_refl. reflexivity. }
  rewrite Hg, position_in_queue_value. reflexivity.
Qed.

Lemma register_then_get_witness :
  exists r s',
    register_ticket (mkTicketCreate "Eve" 2) 500 sample_store = (Return r, s') /\
    get_ticket (TicketRead.id r) s' = (Return r, s').
Proof.
  eexists. eexists. split; [vm_compute; reflexivity|].
  apply (register_then_get (mkTicketCreate "Eve" 2) 500 sample_store).
  vm_compute. reflexivity.
Defined.

(** Cancelling a ticket right after registering it gives back the store
    as it was before the registration. *)
Theorem register_then_cancel (data : TicketCreate) (now : Z) (s s' : Store)
    (r : TicketRead.t) :
  register_ticket data now s = (Return r, s') ->
  cancel_ticket (TicketRead.id r) s' = (Return tt, s).
Proof.
  intros H. destruct (register_ticket_inv _ _ _ _ _ H) as [Hs' Hr].
  cbn zeta in *. rewrite Hr. cbn [_ticket_to_read TicketRead.id Ticket.id].
  unfold cancel_ticket. run_handler.
  assert (Hg : get_ticket_row (next_rowid (map Ticket.id (tickets s))) s'
               = Some (Ticket.mk (next_rowid (map Ticket.id (tickets s)))
                                 (tc_name data) (tc_service_id data)
                                 false now None)).
  { rewrite Hs'. unfold get_ticket_row. cbn [tickets].
    rewrite find_app_none by apply find_fresh_rowid.
    cbn. rewrite Z.eqb_refl. reflexivity. }
  rewrite Hg. cbn [Ticket.called Ticket.id]. f_equal.
  rewrite Hs'. cbn [services tickets].
  rewrite filter_app, filter_fresh_rowid. cbn [filter].
  rewrite Z.eqb_refl. cbn [negb]. rewrite app_nil_r.
  destruct s; reflexivity.
Qed.

Lemma register_then_cancel_witness :
  exists r s',
    register_ticket (mkTicketCreate "Eve" 2) 500 sample_store = (Return r, s') /\
    cancel_ticket (TicketRead.id r) s' = (Return tt, sample_store).
Proof.
  eexists. eexists. split; [vm_compute; reflexivity|].
  apply (register_then_cancel (mkTicketCreate "Eve" 2) 500 sample_store).
  vm_compute. reflexivity.
Defined.

(** ** How the operations compose *)

Lemma call_next_inv (service_id now : Z) (s s' : Store) (r : TicketRead.t) :
  call_next service_id now s = (Return r, s') ->
  exists k,
    select_next service_id s = Some k /\
    r = _ticket_to_read (mark_called k now) 0 /\
    s' = mkStore (services s)
                 (map (fun x => if Ticket.id x =? Ticket.id k
                                then mark_called k now else x)
                      (tickets s)).
Proof.
  unfold call_next. run_handler.
  destruct (select_next service_id s) as [k|]; [|discriminate].
  cbn. intros H. injection H as <- <-. exists k. auto.
Qed.

Lemma find_updated_row (k k' : Ticket.t) (l : list Ticket.t) :
  In k l -> Ticket.id k' = Ticket.id k ->
  find (fun r => Ticket.id r =? Ticket.id k)
       (map (fun x => if Ticket.id x =? Ticket.id k then k' else x) l)
  = Some k'.
Proof.
  intros Hin Hid. induction l as [|x l IH]; [destruct Hin|].
  cbn. destruct (Ticket.id x =? Ticket.id k) eqn:E.
  - rewrite Hid, Z.eqb_refl. reflexivity.
  - rewrite E. apply IH. destruct Hin as [->|Hin]; [|exact Hin].
    rewrite Z.eqb_refl in E. discriminate.
Qed.

(** Once [call_next] has answered with a ticket, that ticket is found
    under its id exactly as answered (called, position 0), and cancelling
    it is refused with 400 "Already called; cannot cancel" without touching
    the store. *)
Theorem called_ticket_cannot_be_cancelled
    (service_id now : Z) (s s' : Store) (r : TicketRead.t) :
  call_next service_id now s = (Return r, s') ->
  get_ticket (TicketRead.id r) s' = (Return r, s') /\
  cancel_ticket (TicketRead.id r) s'
  = (Raised (mkHTTPException 400 "Already called; cannot cancel"), s').
Proof.
  intros H. destruct (call_next_inv _ _ _ _ _ H) as (k & Hk & -> & ->).
  destruct (select_next_earliest _ _ _ Hk) as [Hin _].
  apply select_waiting_In in Hin. destruct Hin as (Hin & _ & _).
  cbn [_ticket_to_read TicketRead.id mark_called Ticket.id].
  assert (Hg : forall sv,
    get_ticket_row (Ticket.id k)
      (mkStore sv (map (fun x => if Ticket.id x =? Ticket.id k
                                 then mark_called k now else x) (tickets s)))
    = Some (mark_called k now)).
  { intros sv. unfold get_ticket_row. cbn [tickets].
    apply find_updated_row; [exact Hin|reflexivity]. }
  split.
  - unfold get_ticket. run_handler. rewrite Hg, position_in_queue_value.
    reflexivity.
  - unfold cancel_ticket. run_handler. rewrite Hg. reflexivity.
Qed.

Lemma called_ticket_cannot_be_cancelled_witness :
  exists r s',
    call_next 1 500 sample_store = (Return r, s') /\
    TicketRead.name r = "Bob"%string /\
    get_ticket (TicketRead.id r) s' = (Return r, s') /\
    cancel_ticket (TicketRead.id r) s'
    = (Raised (mkHTTPException 400 "Already called; cannot cancel"), s').
Proof.
  eexists. eexists. split; [vm_compute; reflexivity|].
  split; [reflexivity|].
  apply (called_ticket_cannot_be_cancelled 1 500 sample_store).
  vm_compute. reflexivity.
Defined.

Lemma annotate_In (l : list Ticket.t) :
  forall (idx : Z) (r : TicketRead.t),
    In r (annotate idx l) -> exists t, In t l /\ TicketRead.id r = Ticket.id t.
Proof.
  induction l as [|x l IH]; intros idx r; cbn [annotate]; [intros []|].
  intros [<-|H].
  - exists x. split; [left; reflexivity|reflexivity].
  - destruct (IH _ _ H) as (t & Ht & E). exists t. split; [right; exact Ht|exact E].
Qed.

(** After a ticket has been cancelled it is gone for every reader:
    [get_ticket] and a second [cancel_ticket] answer 404 (the id, having
    been a key of the table, fits a signed 64-bit integer), and no queue
    listing holds an entry with its id. *)
Theorem cancelled_ticket_is_gone (ticket_id : Z) (s s' : Store) :
  in_int64 ticket_id = true ->
  cancel_ticket ticket_id s = (Return tt, s') ->
  get_ticket ticket_id s' = (Raised (mkHTTPException 404 "Ticket not found"), s') /\
  cancel_ticket ticket_id s'
  = (Raised (mkHTTPException 404 "Ticket not found"), s') /\
  forall service_id q,
    queue_detail service_id s' = (Return q, s') ->
    ~ In ticket_id (map TicketRead.id (QueueRead.tickets q)).
Proof.
  intros Hrange. unfold cancel_ticket at 1. run_handler.
  destruct (get_ticket_row ticket_id s) as [t|] eqn:Hg;
    [|destruct (in_int64 _); discriminate].
  destruct (get_ticket_row_In _ _ _ Hg) as [_ Hid].
  destruct (Ticket.called t); cbn; [discriminate|].
  intros H. injection H as <-.
  assert (Hgone : forall r,
            In r (filter (fun r => negb (Ticket.id r =? Ticket.id t)) (tickets s)) ->
            Ticket.id r <> ticket_id).
  { intros r Hr. apply filter_In in Hr. destruct Hr as [_ Hr].
    apply negb_true_iff, Z.eqb_neq in Hr. congruence. }
  assert (Hnone : get_ticket_row ticket_id
                    (mkStore (services s)
                       (filter (fun r => negb (Ticket.id r =? Ticket.id t))
                               (tickets s))) = None).
  { apply get_ticket_row_none. exact Hgone. }
  split; [|split].
  - unfold get_ticket. run_handler. rewrite Hnone, Hrange. reflexivity.
  - unfold cancel_ticket. run_handler. rewrite Hnone, Hrange. reflexivity.
  - intros service_id q Hq Hin.
    destruct (queue_detail_inv _ _ _ _ Hq) as (svc & _ & _ & ->).
    cbn [QueueRead.tickets] in Hin.
    apply in_map_iff in Hin. destruct Hin as (r & Hr & Hin).
    apply annotate_In in Hin. destruct Hin as (u & Hu & E).
    apply (Permutation_in _ (select_service_tickets_perm _ _)) in Hu.
    unfold tickets_of in Hu. apply filter_In in Hu. destruct Hu as [Hu _].
    apply (Hgone u Hu). congruence.
Qed.

Lemma cancelled_ticket_is_gone_witness :
  exists s',
    cancel_ticket 2 sample_store = (Return tt, s') /\
    get_ticket 2 s' = (Raised (mkHTTPException 404 "Ticket not found"), s').
Proof.
  eexists. split; [vm_compute; reflexivity|].
  apply (cancelled_ticket_is_gone 2 sample_store); [reflexivity|].
  vm_compute. reflexivity.
Defined.

(** ** Positions *)

Lemma filter_length_le {A} (p q : A -> bool) (l : list A) :
  (forall x, In x l -> p x = true -> q x = true) ->
  (List.length (filter p l) <= List.length (filter q l))%nat.
Proof.
  induction l as [|x l IH]; intros H; cbn; [lia|].
  assert (IH' := IH (fun y Hy => H y (or_intror Hy))).
  specialize (H x (or_introl eq_refl)).
  destruct (p x), (q x); cbn; try lia; try discriminate (H eq_refl).
Qed.

Lemma filter_length_lt {A} (p q : A -> bool) (l : list A) (a : A) :
  (forall x, In x l -> p x = true -> q x = true) ->
  In a l -> p a = false -> q a = true ->
  (List.length (filter p l) < List.length (filter q l))%nat.
Proof.
  induction l as [|x l IH]; intros H Ha Hp Hq; [destruct Ha|]. cbn.
  assert (Hle := filter_length_le p q l (fun y Hy => H y (or_intror Hy))).
  destruct Ha as [->|Ha].
  - rewrite Hp, Hq. cbn. lia.
  - assert (IH' := IH (fun y Hy => H y (or_intror Hy)) Ha Hp Hq).
    specialize (H x (or_introl eq_refl)).
    destruct (p x), (q x); cbn; try lia; try discriminate (H eq_refl).
Qed.

(** The position of a ticket of the store is 0 when it is called and lies
    between 1 and the number of waiting tickets of its service when it is
    waiting. *)
Theorem position_bounds (t : Ticket.t) (s : Store) (p : Z) :
  In t (tickets s) ->
  _position_in_queue t s = (Return p, s) ->
  if Ticket.called t then p = 0
  else 1 <= p <= Z.of_nat (List.length (select_waiting (Ticket.service_id t) s)).
Proof.
  intros Hin H. rewrite position_in_queue_value in H. injection H as <-.
  destruct (Ticket.called t) eqn:Hc; [reflexivity|].
  split; [lia|].
  assert (Hlt : (List.length (select_earlier_waiting t s)
                 < List.length (select_waiting (Ticket.service_id t) s))%nat).
  { unfold select_earlier_waiting, select_waiting.
    apply (filter_length_lt _ _ _ t).
    - intros x _ Hx. apply andb_true_iff in Hx. tauto.
    - exact Hin.
    - rewrite Z.ltb_irrefl. apply andb_false_r.
    - rewrite Z.eqb_refl, Hc. reflexivity. }
  lia.
Qed.

Lemma position_bounds_witness :
  1 <= 2 <= Z.of_nat (List.length (select_waiting 1 sample_store)).
Proof.
  apply (position_bounds (Ticket.mk 4 "Carol" 1 false 300 None) sample_store 2).
  - cbn. tauto.
  - reflexivity.
Defined.

(** Among the waiting tickets of one service, positions follow arrival:
    a ticket that arrived no later has no larger position, and a ticket of
    the store that arrived strictly earlier has a strictly smaller one. *)
Theorem position_follows_arrival (t u : Ticket.t) (s : Store) (p q : Z) :
  Ticket.service_id t = Ticket.service_id u ->
  Ticket.called t = false -> Ticket.called u = false ->
  _position_in_queue t s = (Return p, s) ->
  _position_in_queue u s = (Return q, s) ->
  (Ticket.created_at t <= Ticket.created_at u -> p <= q) /\
  (Ticket.created_at t < Ticket.created_at u -> In t (tickets s) -> p < q).
Proof.
  intros Hsvc Ht Hu Hp Hq. rewrite position_in_queue_value in Hp, Hq.
  rewrite Ht in Hp. rewrite Hu in Hq. injection Hp as <-. injection Hq as <-.
  unfold select_earlier_waiting. rewrite Hsvc. split.
  - intros Hle.
    match goal with |- Z.of_nat ?a + 1 <= Z.of_nat ?b + 1 =>
      assert (H : (a <= b)%nat); [|lia] end.
    apply filter_length_le. intros x _ Hx.
    apply andb_true_iff in Hx. destruct Hx as [Hx Hlt].
    rewrite Hx. apply Z.ltb_lt in Hlt. apply Z.ltb_lt. lia.
  - intros Hlt Hin.
    match goal with |- Z.of_nat ?a + 1 < Z.of_nat ?b + 1 =>
      assert (H : (a < b)%nat); [|lia] end.
    apply (filter_length_lt _ _ _ t).
    + intros x _ Hx. apply andb_true_iff in Hx. destruct Hx as [Hx Hx'].
      rewrite Hx. apply Z.ltb_lt in Hx'. apply Z.ltb_lt. lia.
    + exact Hin.
    + rewrite Z.ltb_irrefl. apply andb_false_r.
    + rewrite Hsvc, Z.eqb_refl, Ht. apply Z.ltb_lt in Hlt. rewrite Hlt.
      reflexivity.
Qed.

Lemma position_follows_arrival_witness :
  let bob := Ticket.mk 2 "Bob" 1 false 200 None in
  let carol := Ticket.mk 4 "Carol" 1 false 300 None in
  _position_in_queue bob sample_store = (Return 1, sample_store) /\
  _position_in_queue carol sample_store = (Return 2, sample_store) /\
  1 <= 2 /\ 1 < 2.
Proof.
  cbn zeta. split; [reflexivity|]. split; [reflexivity|].
  assert (Hle : 200 <= 300) by lia.
  assert (Hlt : 200 < 300) by lia.
  assert (Hin : In (Ticket.mk 2 "Bob" 1 false 200 None) (tickets sample_store))
    by (cbn; tauto).
  destruct (position_follows_arrival
              (Ticket.mk 2 "Bob" 1 false 200 None)
              (Ticket.mk 4 "Carol" 1 false 300 None)
              sample_store 1 2 eq_refl eq_refl eq_refl eq_refl eq_refl)
    as [H1 H2].
  split; [exact (H1 Hle)|exact (H2 Hlt Hin)].
Defined.

Lemma delete_unique_row (t : Ticket.t) (l : list Ticket.t) :
  NoDup (map Ticket.id l) -> In t l ->
  exists l1 l2,
    l = l1 ++ t :: l2 /\
    filter (fun r => negb (Ticket.id r =? Ticket.id t)) l = l1 ++ l2.
Proof.
  intros Hnd Hin. apply in_split in Hin. destruct Hin as (l1 & l2 & ->).
  exists l1, l2. split; [reflexivity|].
  rewrite map_app in Hnd. cbn in Hnd. apply NoDup_remove_2 in Hnd.
  assert (Hsame : forall l0, ~ In (Ticket.id t) (map Ticket.id l0) ->
            filter (fun r => negb (Ticket.id r =? Ticket.id t)) l0 = l0).
  { intros l0 Hn. apply forallb_filter_id, forallb_forall. intros r Hr.
    apply negb_true_iff, Z.eqb_neq. intros E. apply Hn. rewrite <- E.
    apply in_map, Hr. }
  rewrite filter_app. cbn [filter]. rewrite Z.eqb_refl. cbn [negb].
  rewrite !Hsame; [reflexivity| |]; intros H; apply Hnd, in_or_app; tauto.
Qed.

Lemma in_middle_other (u t : Ticket.t) (l1 l2 : list Ticket.t) :
  In u (l1 ++ t :: l2) -> Ticket.id u <> Ticket.id t -> In u (l1 ++ l2).
Proof.
  intros H Hne. apply in_app_iff in H. apply in_app_iff.
  destruct H as [H|[->|H]]; [left; exact H | congruence | right; exact H].
Qed.

(** When [call_next] calls a ticket, every other ticket stays in the
    store, and its position drops by one exactly when it waits for the same
    service and arrived strictly after the ticket called; otherwise its
    position is what it was. *)
Theorem queue_advances_on_call
    (service_id now : Z) (s s' : Store) (r : TicketRead.t) (u : Ticket.t) (p : Z) :
  wf s ->
  call_next service_id now s = (Return r, s') ->
  In u (tickets s) ->
  Ticket.id u <> TicketRead.id r ->
  _position_in_queue u s = (Return p, s) ->
  In u (tickets s') /\
  _position_in_queue u s'
  = (Return (if (Ticket.service_id u =? service_id)
                && negb (Ticket.called u)
                && (TicketRead.created_at r <? Ticket.created_at u)
             then p - 1 else p), s').
Proof.
  intros [_ Hnd] Hcall Hu Hne Hp.
  destruct (call_next_inv _ _ _ _ _ Hcall) as (k & Hk & -> & ->).
  cbn [_ticket_to_read TicketRead.id TicketRead.created_at mark_called
       Ticket.id Ticket.created_at] in *.
  destruct (select_next_earliest _ _ _ Hk) as [Hin _].
  apply select_waiting_In in Hin. destruct Hin as (Hin & Hsvc & Hc).
  destruct (update_unique_row k (mark_called k now) (tickets s) Hnd Hin eq_refl)
    as (l1 & l2 & Hl & Hupd).
  cbn [mark_called Ticket.id] in Hupd. rewrite Hupd.
  rewrite position_in_queue_value in Hp |- *. injection Hp as <-.
  split.
  { cbn [tickets]. rewrite Hl in Hu. apply in_app_iff in Hu. apply in_app_iff.
    destruct Hu as [Hu|[->|Hu]]; [left; exact Hu | congruence | right; right; exact Hu]. }
  f_equal. f_equal.
  destruct (Ticket.called u) eqn:Huc.
  { rewrite andb_false_r. reflexivity. }
  unfold select_earlier_waiting. cbn [tickets]. rewrite Hl.
  rewrite !filter_app. cbn [filter Ticket.service_id Ticket.called Ticket.created_at].
  rewrite Hsvc, Hc, (Z.eqb_sym (Ticket.service_id u) service_id).
  rewrite andb_false_r. cbn [negb andb].
  destruct ((service_id =? Ticket.service_id u) && true
            && (Ticket.created_at k <? Ticket.created_at u)) eqn:E.
  - rewrite !length_app. cbn [List.length]. lia.
  - reflexivity.
Qed.

Lemma queue_advances_on_call_witness :
  let carol := Ticket.mk 4 "Carol" 1 false 300 None in
  let s' := snd (call_next 1 500 sample_store) in
  _position_in_queue carol sample_store = (Return 2, sample_store) /\
  _position_in_queue carol s' = (Return 1, s').
Proof.
  cbn zeta. split; [reflexivity|].
  assert (Hin : In (Ticket.mk 4 "Carol" 1 false 300 None) (tickets sample_store))
    by (cbn; tauto).
  assert (Hne : 4 <> 2) by lia.
  exact (proj2 (queue_advances_on_call 1 500 sample_store
                  (snd (call_next 1 500 sample_store))
                  (TicketRead.mk 2 "Bob" 1 0 true 200 (Some 500))
                  (Ticket.mk 4 "Carol" 1 false 300 None) 2
                  sample_store_wf eq_refl Hin Hne eq_refl)).
Defined.

(** When a waiting ticket is cancelled, every other ticket stays in the
    store, and its position drops by one exactly when it waits for the same
    service and arrived strictly after the cancelled ticket; otherwise its
    position is what it was. *)
Theorem queue_advances_on_cancel
    (ticket_id : Z) (s s' : Store) (d u : Ticket.t) (p : Z) :
  wf s ->
  get_ticket_row ticket_id s = Some d ->
  cancel_ticket ticket_id s = (Return tt, s') ->
  In u (tickets s) ->
  Ticket.id u <> ticket_id ->
  _position_in_queue u s = (Return p, s) ->
  In u (tickets s') /\
  _position_in_queue u s'
  = (Return (if (Ticket.service_id u =? Ticket.service_id d)
                && negb (Ticket.called u)
                && (Ticket.created_at d <? Ticket.created_at u)
             then p - 1 else p), s').
Proof.
  intros [_ Hnd] Hg Hcancel Hu Hne Hp.
  destruct (get_ticket_row_In _ _ _ Hg) as [Hin Hid].
  unfold cancel_ticket in Hcancel.
  unfold bind, session_get_ticket, raise in Hcancel.
  rewrite Hg in Hcancel.
  destruct (Ticket.called d) eqn:Hc; [discriminate|].
  unfold commit_delete_ticket in Hcancel. injection Hcancel as <-.
  destruct (delete_unique_row d (tickets s) Hnd Hin) as (l1 & l2 & Hl & Hdel).
  rewrite Hdel.
  rewrite position_in_queue_value in Hp |- *. injection Hp as <-.
  split.
  { cbn [tickets]. rewrite Hl in Hu. apply (in_middle_other u d); congruence. }
  f_equal. f_equal.
  destruct (Ticket.called u) eqn:Huc.
  { rewrite andb_false_r. reflexivity. }
  unfold select_earlier_waiting. cbn [tickets]. rewrite Hl.
  rewrite !filter_app. cbn [filter]. rewrite Hc.
  rewrite (Z.eqb_sym (Ticket.service_id u) (Ticket.service_id d)).
  cbn [negb].
  destruct ((Ticket.service_id d =? Ticket.service_id u) && true
            && (Ticket.created_at d <? Ticket.created_at u)) eqn:E.
  - rewrite !length_app. cbn [List.length]. lia.
  - reflexivity.
Qed.

Lemma queue_advances_on_cancel_witness :
  let carol := Ticket.mk 4 "Carol" 1 false 300 None in
  let s' := snd (cancel_ticket 2 sample_store) in
  _position_in_queue carol sample_store = (Return 2, sample_store) /\
  _position_in_queue carol s' = (Return 1, s').
Proof.
  cbn zeta. split; [reflexivity|].
  assert (Hin : In (Ticket.mk 4 "Carol" 1 false 300 None) (tickets sample_store))
    by (cbn; tauto).
  assert (Hne : 4 <> 2) by lia.
  exact (proj2 (queue_advances_on_cancel 2 sample_store
                  (snd (cancel_ticket 2 sample_store))
                  (Ticket.mk 2 "Bob" 1 false 200 None)
                  (Ticket.mk 4 "Carol" 1 false 300 None) 2
                  sample_store_wf eq_refl eq_refl Hin Hne eq_refl)).
Defined.

(** A registration whose clock value is later than the arrival of every
    waiting ticket of the service joins at the back: its position is the
    number of tickets that were waiting, plus one. *)
Theorem register_joins_at_back (data : TicketCreate) (now : Z) (s s' : Store)
    (r : TicketRead.t) :
  register_ticket data now s = (Return r, s') ->
  (forall w, In w (select_waiting (tc_service_id data) s) ->
             Ticket.created_at w < now) ->
  TicketRead.position r
  = Z.of_nat (List.length (select_waiting (tc_service_id data) s)) + 1.
Proof.
  intros H Hlate. destruct (register_ticket_inv _ _ _ _ _ H) as [-> ->].
  cbn [_ticket_to_read TicketRead.position]. unfold position_of.
  cbn [Ticket.called]. f_equal. f_equal.
  unfold select_earlier_waiting.
  cbn [tickets Ticket.service_id Ticket.created_at].
  rewrite filter_app. cbn [filter Ticket.created_at].
  rewrite Z.ltb_irrefl, andb_false_r, app_nil_r.
  unfold select_waiting. rewrite <- filter_filter.
  f_equal. apply forallb_filter_id, forallb_forall. intros w Hw.
  apply Z.ltb_lt, Hlate. exact Hw.
Qed.

Lemma register_joins_at_back_witness :
  exists r s',
    register_ticket (mkTicketCreate "Eve" 1) 500 sample_store = (Return r, s') /\
    TicketRead.position r = 3.
Proof.
  eexists. eexists. split; [vm_compute; reflexivity|].
  refine (register_joins_at_back (mkTicketCreate "Eve" 1) 500 sample_store _ _ _ _).
  - vm_compute. reflexivity.
  - cbn. intros w [<-|[<-|[]]]; cbn; lia.
Defined.

(** A registration moves no ticket that arrived at or before its clock
    value: the position of a ticket of the store grows by one exactly when
    it waits for the service registered for and carries a later arrival
    time than the newcomer; otherwise it is what it was. *)
Theorem register_keeps_positions (data : TicketCreate) (now : Z) (s s' : Store)
    (r : TicketRead.t) (u : Ticket.t) (p : Z) :
  register_ticket data now s = (Return r, s') ->
  _position_in_queue u s = (Return p, s) ->
  _position_in_queue u s'
  = (Return (if (Ticket.service_id u =? tc_service_id data)
                && negb (Ticket.called u)
                && (now <? Ticket.created_at u)
             then p + 1 else p), s').
Proof.
  intros H Hp. destruct (register_ticket_inv _ _ _ _ _ H) as [-> _].
  rewrite position_in_queue_value in Hp |- *. injection Hp as <-.
  f_equal. f_equal.
  destruct (Ticket.called u) eqn:Huc.
  { rewrite andb_false_r. reflexivity. }
  unfold select_earlier_waiting. cbn [tickets].
  rewrite filter_app. cbn [filter Ticket.service_id Ticket.called Ticket.created_at].
  rewrite (Z.eqb_sym (Ticket.service_id u) (tc_service_id data)). cbn [negb].
  destruct ((tc_service_id data =? Ticket.service_id u) && true
            && (now <? Ticket.created_at u)) eqn:E.
  - rewrite length_app. cbn [List.length]. lia.
  - rewrite app_nil_r. reflexivity.
Qed.

Lemma register_keeps_positions_witness :
  let carol := Ticket.mk 4 "Carol" 1 false 300 None in
  let s' := snd (register_ticket (mkTicketCreate "Eve" 1) 500 sample_store) in
  _position_in_queue carol s' = (Return 2, s').
Proof.
  cbn zeta.
  exact (register_keeps_positions (mkTicketCreate "Eve" 1) 500 sample_store
           (snd (register_ticket (mkTicketCreate "Eve" 1) 500 sample_store))
           (TicketRead.mk 5 "Eve" 1 3 false 500 None)
           (Ticket.mk 4 "Carol" 1 false 300 None) 2 eq_refl eq_refl).
Defined.

(** ** Listings *)

(** What [queue_detail] answers about a service is that service's line in
    the answer of [stats]: same id, same name, same number waiting. *)
Theorem stats_agrees_with_queue_detail
    (service_id : Z) (s : Store) (q : QueueRead.t) :
  queue_detail service_id s = (Return q, s) ->
  exists summaries,
    stats s = (Return summaries, s) /\
    List.length summaries = List.length (services s) /\
    In (QueueSummary.mk (QueueRead.service_id q) (QueueRead.service_name q)
                        (QueueRead.waiting q))
       summaries.
Proof.
  intros Hq. destruct (queue_detail_inv _ _ _ _ Hq) as (svc & Hg & _ & ->).
  destruct (get_service_In _ _ _ Hg) as [Hin Hid].
  eexists. split; [reflexivity|]. split; [apply length_map|].
  apply in_map_iff. exists svc. split; [|exact Hin].
  cbn [QueueRead.service_id QueueRead.service_name QueueRead.waiting].
  rewrite Hid. f_equal. f_equal.
  symmetry. apply waiting_count_listing.
Qed.

Lemma stats_agrees_with_queue_detail_witness :
  exists q summaries,
    queue_detail 1 sample_store = (Return q, sample_store) /\
    stats sample_store = (Return summaries, sample_store) /\
    In (QueueSummary.mk 1 "Reception" 2) summaries.
Proof.
  eexists.
  destruct (stats_agrees_with_queue_detail 1 sample_store _ eq_refl)
    as (summaries & Hs & _ & Hin).
  exists summaries. split; [reflexivity|]. split; [exact Hs|exact Hin].
Defined.

(** [list_services] answers with every service of the store, each once,
    in ascending id, and writes nothing. *)
Theorem list_services_sorted (s : Store) :
  exists l,
    list_services s = (Return l, s) /\
    Permutation l (services s) /\
    StronglySorted (key_le Service.id) l.
Proof.
  eexists. split; [reflexivity|].
  split; [apply order_by_perm|apply order_by_sorted].
Qed.

(** ** Witnesses for the facts on positions and on calls in a row *)

Lemma queue_detail_positions_exact_witness :
  exists q,
    queue_detail 1 sample_store = (Return q, sample_store) /\
    map TicketRead.position
        (filter (fun r => negb (TicketRead.called r)) (QueueRead.tickets q))
    = [1; 2].
Proof.
  eexists. split; [vm_compute; reflexivity|].
  exact (queue_detail_positions_exact 1 sample_store _ eq_refl).
Defined.

Lemma position_in_queue_exact_when_distinct_witness :
  map (fun t => fst (_position_in_queue t sample_store))
      (filter waiting (select_service_tickets 1 sample_store))
  = [Return 1; Return 2].
Proof.
  refine (position_in_queue_exact_when_distinct 1 sample_store _).
  unfold distinct_arrivals. cbn. nodup_list.
Defined.


(** ** The staff client: reading the id back from a line *)

Lemma string_of_uint_decimal (d : Decimal.uint) :
  all_chars is_decimal_char (DecimalString.NilEmpty.string_of_uint d) = true.
Proof. induction d; cbn; auto. Qed.

Lemma string_of_uint_zero_decimal (d : Decimal.uint) :
  all_chars is_decimal_char (DecimalString.NilZero.string_of_uint d) = true.
Proof.
  destruct d; [reflexivity| | | | | | | | | |];
    exact (string_of_uint_decimal _).
Qed.

Lemma str_decimal (n : Z) : all_chars is_decimal_char (str n) = true.
Proof.
  unfold str. destruct n as [|p|p]; cbn [Z.to_int].
  - reflexivity.
  - exact (string_of_uint_zero_decimal (Pos.to_uint p)).
  - cbn [DecimalString.NilZero.string_of_int all_chars].
    rewrite string_of_uint_zero_decimal. reflexivity.
Qed.

Lemma str_not_empty (n : Z) : str n <> EmptyString.
Proof.
  unfold str. destruct n as [|p|p]; cbn; try discriminate.
  destruct (Pos.to_uint p); cbn; discriminate.
Qed.

Lemma split_first_at (sep : ascii) (s rest : string) :
  all_chars (fun a => negb (Ascii.eqb a sep)) s = true ->
  split_first sep (s ++ String sep rest) = s.
Proof.
  induction s as [|a s IH]; cbn; intros H.
  - rewrite Ascii.eqb_refl. reflexivity.
  - apply andb_true_iff in H. destruct H as [Ha Hs].
    apply negb_true_iff in Ha. rewrite Ha, (IH Hs). reflexivity.
Qed.

Lemma all_chars_impl (p q : ascii -> bool) (s : string) :
  (forall a, p a = true -> q a = true) ->
  all_chars p s = true -> all_chars q s = true.
Proof.
  intros Hpq. induction s as [|a s IH]; cbn; [trivial|].
  intros H. apply andb_true_iff in H. destruct H as [Ha Hs].
  rewrite (Hpq a Ha), (IH Hs). reflexivity.
Qed.

Lemma decimal_char_not (c : ascii) :
  is_decimal_char c = false ->
  forall a, is_decimal_char a = true -> negb (Ascii.eqb a c) = true.
Proof.
  intros Hc a Ha. apply negb_true_iff. destruct (Ascii.eqb a c) eqn:E;
    [|reflexivity]. apply Ascii.eqb_eq in E. congruence.
Qed.

Lemma lstrip_bracket_str (n : Z) : lstrip "[" (String "[" (str n)) = str n.
Proof.
  cbn [lstrip]. rewrite Ascii.eqb_refl.
  pose proof (str_decimal n) as Hd. pose proof (str_not_empty n) as Hn.
  destruct (str n) as [|a rest]; [congruence|].
  cbn in Hd |- *. apply andb_true_iff in Hd. destruct Hd as [Ha _].
  assert (H := decimal_char_not "[" eq_refl a Ha).
  apply negb_true_iff in H. rewrite H. reflexivity.
Qed.

(** The text handed to [int] for a line written by [load_stats] is the
    decimal text of the service id of that line, whatever the name of the
    service (brackets in it included). *)
Lemma stats_line_id_text (e : QueueSummary.t) :
  lstrip "[" (split_first "]" (AdminGUI.stats_line e))
  = str (QueueSummary.service_id e).
Proof.
  assert (Hshape : exists rest,
            AdminGUI.stats_line e
            = String "[" (append (str (QueueSummary.service_id e))
                                 (String "]" rest))).
  { eexists. reflexivity. }
  destruct Hshape as [rest ->].
  assert (Hsplit : split_first "]"
                     (String "[" (append (str (QueueSummary.service_id e))
                                         (String "]" rest)))
                   = String "[" (split_first "]"
                                   (append (str (QueueSummary.service_id e))
                                           (String "]" rest)))) by reflexivity.
  rewrite Hsplit, split_first_at; [apply lstrip_bracket_str|].
  apply (all_chars_impl is_decimal_char); [|apply str_decimal].
  apply decimal_char_not. reflexivity.
Qed.

(** Selecting line [i] of the list that [load_stats] wrote gives the
    service id of the [i]-th summary, for every [int] that reads back the
    decimal texts [str] writes; with nothing selected the answer is
    [None]. *)
Theorem selected_service_id_reads_back
    (int : string -> option Z) (summaries : list QueueSummary.t)
    (i : nat) (others : list nat) (e : QueueSummary.t) :
  (forall n, int (str n) = Some n) ->
  nth_error summaries i = Some e ->
  AdminGUI.selected_service_id int (AdminGUI.load_stats summaries) (i :: others)
  = AdminGUI.ReturnsId (QueueSummary.service_id e) /\
  AdminGUI.selected_service_id int (AdminGUI.load_stats summaries) []
  = AdminGUI.ReturnsNone.
Proof.
  intros Hint Hi. split; [|reflexivity].
  unfold AdminGUI.selected_service_id, AdminGUI.load_stats.
  assert (Hline : nth i (map AdminGUI.stats_line summaries) EmptyString
                  = AdminGUI.stats_line e).
  { apply nth_error_nth. apply map_nth_error. exact Hi. }
  cbn zeta. rewrite Hline, stats_line_id_text, Hint. reflexivity.
Qed.

Lemma int_of_decimal_str (n : Z) : int_of_decimal (str n) = Some n.
Proof.
  unfold int_of_decimal, str.
  rewrite DecimalString.NilZero.isi.
  - cbn. rewrite DecimalZ.of_to. reflexivity.
  - destruct n; cbn; try discriminate.
    intros H. injection H as H. exact (DecimalPos.Unsigned.to_uint_nonnil _ H).
  - destruct n; cbn; try discriminate.
    intros H. injection H as H. exact (DecimalPos.Unsigned.to_uint_nonnil _ H).
Qed.

Lemma selected_service_id_reads_back_witness :
  let summaries := [ QueueSummary.mk 1 "Reception" 2;
                     QueueSummary.mk 2 "Cafe [2] (open)" 1 ] in
  stats sample_store
  = (Return [ QueueSummary.mk 1 "Reception" 2; QueueSummary.mk 2 "Cafe" 1 ],
     sample_store) /\
  AdminGUI.selected_service_id int_of_decimal (AdminGUI.load_stats summaries) [1%nat]
  = AdminGUI.ReturnsId 2.
Proof.
  cbn zeta. split; [reflexivity|].
  exact (proj1 (selected_service_id_reads_back int_of_decimal
                  [ QueueSummary.mk 1 "Reception" 2;
                    QueueSummary.mk 2 "Cafe [2] (open)" 1 ]
                  1 [] (QueueSummary.mk 2 "Cafe [2] (open)" 1)
                  int_of_decimal_str eq_refl)).
Defined.

(** ** Calls that overlap, calls that do not *)









